(** * speech_to_text_backend.py: the ingest / queue / worker pipeline

    A shallow embedding of the three Flask view functions
    ([receive_audio], [get_transcription], [set_mode]) and of the
    background thread [speech_recognition_worker], over the three module
    globals they share: [web_online_mode], [audio_chunk_queue] and
    [latest_transcription_result].

    Each view function is given twice: cut into the pieces between which
    another thread may run (one piece per lock region or per access to a
    global), and as the sequential composition of its pieces. *)

From Stdlib Require Import ZArith String Ascii List Bool Lia.
From Stdlib Require Import Floats.SpecFloat.
From stdpp Require Import base option list gmap strings.

Local Open Scope string_scope.
Local Open Scope Z_scope.
Local Open Scope list_scope.

(** ** Python values, as [request.json] hands them to a view function *)

Module Py.

(** The image of a JSON document under [json.loads]. *)
#[warnings="-register-all"]
Inductive value : Type :=
| VNone
| VBool (b : bool)
| VInt (z : Z)
| VFloat (f : spec_float)
| VStr (s : string)
| VList (l : list value)
| VDict (d : gmap string value).

(** Exceptions are kept as their class and their [str(e)]. *)
Inductive exn_class : Type :=
| TypeError
| KeyError
| ValueError
| BinasciiError
| CouldntDecodeError
| UnknownValueError
| RequestError
| OtherException.

Record exn : Type := Raise { cls : exn_class; msg : string }.

(** [bool(v)] *)
Definition truthy (v : value) : bool :=
  match v with
  | VNone => false
  | VBool b => b
  | VInt z => negb (z =? 0)
  | VFloat (S754_zero _) => false
  | VFloat _ => true
  | VStr s => negb (String.eqb s "")
  | VList l => match l with [] => false | _ => true end
  | VDict d => negb (bool_decide (d = ∅))
  end.

(** [k in s] for two [str]: [k] occurs in [s] as a substring. *)
Fixpoint occurs (k s : string) : bool :=
  String.prefix k s ||
  match s with
  | EmptyString => false
  | String _ s' => occurs k s'
  end.

(** [x == k] for a [str] [k]. *)
Definition eq_str (k : string) (x : value) : bool :=
  match x with
  | VStr s => String.eqb s k
  | _ => false
  end.

(** [k in v] for a [str] [k]. *)
Definition contains (k : string) (v : value) : exn + bool :=
  match v with
  | VDict d => inr (bool_decide (is_Some (d !! k)))
  | VList l => inr (existsb (eq_str k) l)
  | VStr s => inr (occurs k s)
  | VNone => inl (Raise TypeError "argument of type 'NoneType' is not iterable")
  | VBool _ => inl (Raise TypeError "argument of type 'bool' is not iterable")
  | VInt _ => inl (Raise TypeError "argument of type 'int' is not iterable")
  | VFloat _ => inl (Raise TypeError "argument of type 'float' is not iterable")
  end.

(** [v[k]] for a [str] [k]. *)
Definition getitem (v : value) (k : string) : exn + value :=
  match v with
  | VDict d =>
      match d !! k with
      | Some x => inr x
      | None => inl (Raise KeyError k)
      end
  | VList _ => inl (Raise TypeError "list indices must be integers or slices, not str")
  | VStr _ => inl (Raise TypeError "string indices must be integers")
  | VNone => inl (Raise TypeError "'NoneType' object is not subscriptable")
  | VBool _ => inl (Raise TypeError "'bool' object is not subscriptable")
  | VInt _ => inl (Raise TypeError "'int' object is not subscriptable")
  | VFloat _ => inl (Raise TypeError "'float' object is not subscriptable")
  end.

(** [str(b)] for a [bool], as an f-string prints it. *)
Definition str_bool (b : bool) : string := if b then "True" else "False".

End Py.

(** ** The module globals *)

(** An audio chunk is a Python [bytes] object. *)
Definition bytes : Type := list Byte.byte.

(** The dict [{"status": ..., "text": ...}]. *)
Record TranscriptionResult : Type :=
  { status : string; text : string }.

Definition idle_result : TranscriptionResult :=
  {| status := "idle"; text := "" |}.

Definition success_result (t : string) : TranscriptionResult :=
  {| status := "success"; text := t |}.

Record Globals : Type :=
  { web_online_mode : bool;
    audio_chunk_queue : list bytes;
    latest_transcription_result : TranscriptionResult }.

(** Lines 55, 58 and 63: the values at import time. *)
Definition initial_globals : Globals :=
  {| web_online_mode := false;
     audio_chunk_queue := [];
     latest_transcription_result := idle_result |}.

Definition set_online (b : bool) (g : Globals) : Globals :=
  {| web_online_mode := b;
     audio_chunk_queue := audio_chunk_queue g;
     latest_transcription_result := latest_transcription_result g |}.

Definition set_queue (q : list bytes) (g : Globals) : Globals :=
  {| web_online_mode := web_online_mode g;
     audio_chunk_queue := q;
     latest_transcription_result := latest_transcription_result g |}.

Definition set_result (r : TranscriptionResult) (g : Globals) : Globals :=
  {| web_online_mode := web_online_mode g;
     audio_chunk_queue := audio_chunk_queue g;
     latest_transcription_result := r |}.

(** ** What a step does besides changing the globals *)

(** The argument of [jsonify]. *)
Inductive body : Type :=
| StatusMessage (st message : string)
| Transcription (r : TranscriptionResult)
| StatusMode (st : string) (online_mode : bool).

(** What a view function hands back to Flask: a [(jsonify(..), code)]
    pair, or an exception that no [except] clause of the view caught. *)
Inductive response : Type :=
| Reply (b : body) (code : Z)
| Unhandled (e : Py.exn).

(** [Print], [Notify], [Wait] and [Sleep] are calls the code makes
    ([print], [audio_chunk_queue_cv.notify()], [audio_chunk_queue_cv.wait()],
    [time.sleep], the latter in milliseconds).  The others record, for the
    statements about traces, which operation on a global a step performed
    and what a view function returned. *)
Inductive event : Type :=
| Print (s : string)
| Notify
| Wait
| Sleep (ms : Z)
| Enqueued (c : bytes)
| Dequeued (c : bytes)
| Cleared
| Published (r : TranscriptionResult)
| Returned (r : response).

(** ** The view functions and the worker, piece by piece *)

(** Where a call of [set_mode] stands once line 135 has written the flag. *)
Inductive mode_pc : Type :=
| MCheck    (* line 139 is next: read [web_online_mode] *)
| MClear    (* line 140 is next: take the queue lock and clear the list *)
| MAssign   (* line 142 is next: take the result lock and assign *)
| MReturn (local_latest_transcription_result : option TranscriptionResult).
            (* line 145 is next; the argument is the function's local
               variable [latest_transcription_result], unbound ([None])
               unless line 143 ran *)

(** Where the worker thread stands in its [while True] body. *)
Inductive worker_pc : Type :=
| WTop                          (* about to take the queue lock and test
                                   the [while] condition of line 157 *)
| WWaiting                      (* blocked in [audio_chunk_queue_cv.wait()] *)
| WHave (current_audio_chunk : option bytes)
                                (* lock released; line 163 is next *)
| WRecognizing (current_audio_chunk : bytes)
                                (* inside [recognize_google], line 183 *)
| WPublish (text : string).     (* line 185 is next: take the result lock *)

Section Backend.

(** [base64.b64decode], applied to whatever the body holds under
    ["audio_chunk"]: the bytes, or the exception it raises. *)
Variable b64decode : Py.value -> Py.exn + bytes.

(** Lines 166-179 ([AudioSegment.from_raw], [export], [recognizer.record])
    on a chunk: [Some e] when one of them raises [e]. *)
Variable from_raw : bytes -> option Py.exn.

(** *** [receive_audio] *)

(** Lines 96-107: the gate on the flag, the checks on the body and the
    Base64 decoding.  [inl] is a return (with what was printed), [inr]
    the local [audio_data] with which lines 110-114 go on. *)
Definition receive_audio_admit (g : Globals) (data : Py.value)
  : (response * list event) + bytes :=
  if negb (web_online_mode g) then
    inl (Reply (StatusMessage "error" "Online mode is not active") 400, [])
  else if negb (Py.truthy data) then
    inl (Reply (StatusMessage "error" "No audio_chunk provided") 400, [])
  else
    match Py.contains "audio_chunk" data with
    | inl e => inl (Unhandled e, [])
    | inr false =>
        inl (Reply (StatusMessage "error" "No audio_chunk provided") 400, [])
    | inr true =>
        match Py.getitem data "audio_chunk" with
        | inl e => inl (Unhandled e, [])
        | inr audio_data_base64 =>
            match b64decode audio_data_base64 with
            | inl e =>
                inl (Reply (StatusMessage "error"
                              ("Error decoding audio data: " +:+ Py.msg e)) 400,
                     [Print ("Error decoding audio data: " +:+ Py.msg e)])
            | inr audio_data => inr audio_data
            end
        end
    end.

(** Lines 110-114, one region of [audio_chunk_queue_lock]. *)
Definition receive_audio_append (g : Globals) (audio_data : bytes)
  : Globals * response * list event :=
  (set_queue (audio_chunk_queue g ++ [audio_data]) g,
   Reply (StatusMessage "success" "Audio chunk received") 200,
   [Enqueued audio_data; Notify]).

(** The whole view function, run without another thread in between. *)
Definition receive_audio (g : Globals) (data : Py.value)
  : Globals * response * list event :=
  match receive_audio_admit g data with
  | inl (r, out) => (g, r, out)
  | inr audio_data => receive_audio_append g audio_data
  end.

(** *** [get_transcription] *)

(** Lines 121-126, one region of [latest_transcription_lock]. *)
Definition get_transcription (g : Globals) : Globals * response :=
  let response := latest_transcription_result g in
  (set_result idle_result g, Reply (Transcription response) 200).

(** *** [set_mode] *)

(** Lines 130-136: the checks on the body, the write of the flag and the
    [print]. *)
Definition set_mode_write (g : Globals) (data : Py.value)
  : (response + Globals) * list event :=
  if negb (Py.truthy data) then
    (inl (Reply (StatusMessage "error" "No online_mode provided") 400), [])
  else
    match Py.contains "online_mode" data with
    | inl e => (inl (Unhandled e), [])
    | inr false =>
        (inl (Reply (StatusMessage "error" "No online_mode provided") 400), [])
    | inr true =>
        match Py.getitem data "online_mode" with
        | inl e => (inl (Unhandled e), [])
        | inr v =>
            let b := Py.truthy v in
            (inr (set_online b g),
             [Print ("Backend: Online mode set to " +:+ Py.str_bool b)])
        end
    end.

(** Lines 139-145, one piece per access: the read of the flag, the
    region of the queue lock, the region of the result lock, the read of
    the flag for the reply.  [set_mode] declares only [web_online_mode]
    global, so line 143 binds a local of the function. *)
Definition set_mode_step (g : Globals) (pc : mode_pc)
  : Globals * (mode_pc + response) * list event :=
  match pc with
  | MCheck =>
      (g, inl (if negb (web_online_mode g) then MClear else MReturn None), [])
  | MClear => (set_queue [] g, inl MAssign, [Cleared])
  | MAssign => (g, inl (MReturn (Some idle_result)), [])
  | MReturn _ =>
      (g, inr (Reply (StatusMode "success" (web_online_mode g)) 200), [])
  end.

(** The whole view function, run without another thread in between. *)
Definition set_mode (g : Globals) (data : Py.value)
  : Globals * response * list event :=
  match set_mode_write g data with
  | (inl r, out) => (g, r, out)
  | (inr g1, out) =>
      let '(g2, local_latest_transcription_result, out') :=
        if negb (web_online_mode g1) then
          (set_queue [] g1, Some idle_result, [Cleared])
        else (g1, None, [])
      in
      (g2, Reply (StatusMode "success" (web_online_mode g2)) 200, out ++ out')
  end.

(** *** [speech_recognition_worker] *)

(** Lines 155-161, one region of [audio_chunk_queue_lock]: the [while]
    of line 157 calls [wait()] when the list is empty and the flag set,
    otherwise line 160 pops the head of a non-empty list. *)
Definition worker_lock (g : Globals) : Globals * worker_pc * list event :=
  match audio_chunk_queue g with
  | [] =>
      if web_online_mode g then (g, WWaiting, [Wait])
      else (g, WHave None, [])
  | c :: q => (set_queue q g, WHave (Some c), [Dequeued c])
  end.

(** Line 163 and, on its [if] branch, lines 166-179; on its [else]
    branch line 197.  [None] and [b''] are falsy.  Lines 166-179 stand
    before the inner [try], so what they raise reaches line 199. *)
Definition worker_check (g : Globals) (current_audio_chunk : option bytes)
  : worker_pc * list event :=
  match current_audio_chunk with
  | Some ((_ :: _) as chunk) =>
      if web_online_mode g then
        match from_raw chunk with
        | Some e =>
            (WTop, [Print ("Error in transcription worker: " +:+ Py.msg e);
                    Sleep 1000])
        | None => (WRecognizing chunk, [])
        end
      else (WTop, [Sleep 50])
  | _ => (WTop, [Sleep 50])
  end.

(** Lines 183-184 and the [except] clauses of lines 187-195, on what
    [recognize_google] returns ([inr]) or raises ([inl]). *)
Definition worker_engine (r : Py.exn + string) : worker_pc * list event :=
  match r with
  | inr text => (WPublish text, [Print ("Backend Recognized (Google): " +:+ text)])
  | inl e =>
      match Py.cls e with
      | Py.UnknownValueError => (WTop, [])
      | Py.RequestError =>
          (WTop, [Print ("Could not request results from Google Speech Recognition service; "
                         +:+ Py.msg e)])
      | Py.CouldntDecodeError =>
          (WTop, [Print ("pydub could not decode audio chunk: " +:+ Py.msg e)])
      | _ =>
          (WTop, [Print ("An unexpected error occurred during recognition: "
                         +:+ Py.msg e)])
      end
  end.

(** Lines 185-186, one region of [latest_transcription_lock]. *)
Definition worker_publish (g : Globals) (text : string)
  : Globals * worker_pc * list event :=
  (set_result (success_result text) g, WTop, [Published (success_result text)]).

(** ** The threads together *)

(** The globals, the calls of [receive_audio] that hold their
    [audio_data] and have not yet run lines 110-114, the calls of
    [set_mode] that have written the flag and not yet returned, and the
    worker. *)
Record Config : Type :=
  { globals : Globals;
    audio_calls : list bytes;
    mode_calls : list mode_pc;
    worker : worker_pc }.

Definition initial_config : Config :=
  {| globals := initial_globals;
     audio_calls := [];
     mode_calls := [];
     worker := WTop |}.

(** One piece of one thread. *)
Inductive action : Type :=
| AudioBegin (data : Py.value)   (* a new POST /audio runs lines 96-107 *)
| AudioAppend (i : nat)          (* the i-th held call runs lines 110-114 *)
| Poll                           (* a GET /transcription, lines 121-126 *)
| ModeBegin (data : Py.value)    (* a new POST /mode runs lines 130-136 *)
| ModeStep (i : nat)             (* the i-th held call runs its next piece *)
| WorkerStep                     (* the worker runs its next piece *)
| EngineReturns (r : Py.exn + string).
                                 (* [recognize_google] returns or raises *)

(** [notify()] wakes the thread waiting on the condition, if there is
    one; woken, it takes the lock again and tests the [while] condition
    again, which is what [WTop] does. *)
Definition notify (w : worker_pc) : worker_pc :=
  match w with
  | WWaiting => WTop
  | _ => w
  end.

(** [None] when the action is not enabled: no such held call, a worker
    blocked in [wait()], no call of the engine to return from. *)
Definition exec (c : Config) (a : action) : option (Config * list event) :=
  match a with
  | AudioBegin data =>
      match receive_audio_admit (globals c) data with
      | inl (r, out) => Some (c, out ++ [Returned r])
      | inr audio_data =>
          Some ({| globals := globals c;
                   audio_calls := audio_calls c ++ [audio_data];
                   mode_calls := mode_calls c;
                   worker := worker c |}, [])
      end
  | AudioAppend i =>
      match audio_calls c !! i with
      | Some audio_data =>
          let '(g, r, out) := receive_audio_append (globals c) audio_data in
          Some ({| globals := g;
                   audio_calls := delete i (audio_calls c);
                   mode_calls := mode_calls c;
                   worker := notify (worker c) |}, out ++ [Returned r])
      | None => None
      end
  | Poll =>
      let '(g, r) := get_transcription (globals c) in
      Some ({| globals := g;
               audio_calls := audio_calls c;
               mode_calls := mode_calls c;
               worker := worker c |}, [Returned r])
  | ModeBegin data =>
      match set_mode_write (globals c) data with
      | (inl r, out) => Some (c, out ++ [Returned r])
      | (inr g, out) =>
          Some ({| globals := g;
                   audio_calls := audio_calls c;
                   mode_calls := mode_calls c ++ [MCheck];
                   worker := worker c |}, out)
      end
  | ModeStep i =>
      match mode_calls c !! i with
      | Some pc =>
          match set_mode_step (globals c) pc with
          | (g, inl pc', out) =>
              Some ({| globals := g;
                       audio_calls := audio_calls c;
                       mode_calls := <[i := pc']> (mode_calls c);
                       worker := worker c |}, out)
          | (g, inr r, out) =>
              Some ({| globals := g;
                       audio_calls := audio_calls c;
                       mode_calls := delete i (mode_calls c);
                       worker := worker c |}, out ++ [Returned r])
          end
      | None => None
      end
  | WorkerStep =>
      match worker c with
      | WTop =>
          let '(g, w, out) := worker_lock (globals c) in
          Some ({| globals := g;
                   audio_calls := audio_calls c;
                   mode_calls := mode_calls c;
                   worker := w |}, out)
      | WHave chunk =>
          let '(w, out) := worker_check (globals c) chunk in
          Some ({| globals := globals c;
                   audio_calls := audio_calls c;
                   mode_calls := mode_calls c;
                   worker := w |}, out)
      | WPublish text =>
          let '(g, w, out) := worker_publish (globals c) text in
          Some ({| globals := g;
                   audio_calls := audio_calls c;
                   mode_calls := mode_calls c;
                   worker := w |}, out)
      | WWaiting | WRecognizing _ => None
      end
  | EngineReturns r =>
      match worker c with
      | WRecognizing _ =>
          let '(w, out) := worker_engine r in
          Some ({| globals := globals c;
                   audio_calls := audio_calls c;
                   mode_calls := mode_calls c;
                   worker := w |}, out)
      | _ => None
      end
  end.

(** A schedule, from left to right, with everything it emits. *)
Fixpoint run (c : Config) (sched : list action) : option (Config * list event) :=
  match sched with
  | [] => Some (c, [])
  | a :: sched' =>
      match exec c a with
      | Some (c', out) =>
          match run c' sched' with
          | Some (c'', out') => Some (c'', out ++ out')
          | None => None
          end
      | None => None
      end
  end.

(** ** Requests served one at a time *)

(** A whole call of a view function, or one piece of the worker. *)
Inductive request : Type :=
| PostAudio (data : Py.value)
| GetTranscription
| PostMode (data : Py.value)
| Worker
| Engine (r : Py.exn + string).

Definition is_notify (e : event) : bool :=
  match e with
  | Notify => true
  | _ => false
  end.

(** The worker after a call that emitted [out]. *)
Definition wake (out : list event) (w : worker_pc) : worker_pc :=
  if existsb is_notify out then notify w else w.

Definition serve (c : Config) (q : request) : option (Config * list event) :=
  match q with
  | PostAudio data =>
      let '(g, r, out) := receive_audio (globals c) data in
      Some ({| globals := g;
               audio_calls := audio_calls c;
               mode_calls := mode_calls c;
               worker := wake out (worker c) |}, out ++ [Returned r])
  | GetTranscription => exec c Poll
  | PostMode data =>
      let '(g, r, out) := set_mode (globals c) data in
      Some ({| globals := g;
               audio_calls := audio_calls c;
               mode_calls := mode_calls c;
               worker := wake out (worker c) |}, out ++ [Returned r])
  | Worker => exec c WorkerStep
  | Engine r => exec c (EngineReturns r)
  end.

Fixpoint serve_all (c : Config) (qs : list request) : option (Config * list event) :=
  match qs with
  | [] => Some (c, [])
  | q :: qs' =>
      match serve c q with
      | Some (c', out) =>
          match serve_all c' qs' with
          | Some (c'', out') => Some (c'', out ++ out')
          | None => None
          end
      | None => None
      end
  end.

(** No call of a view function is under way. *)
Definition quiescent (c : Config) : Prop :=
  audio_calls c = [] /\ mode_calls c = [].

End Backend.

(** ** Reading bodies, configurations and traces *)

(** What a body holds under a key when it is a JSON object. *)
Definition field (data : Py.value) (k : string) : option Py.value :=
  match data with
  | Py.VDict d => d !! k
  | _ => None
  end.

Definition object_or_null (data : Py.value) : Prop :=
  data = Py.VNone \/ exists d, data = Py.VDict d.

(** A configuration with another worker, or other globals. *)
Definition with_worker (w : worker_pc) (c : Config) : Config :=
  {| globals := globals c;
     audio_calls := audio_calls c;
     mode_calls := mode_calls c;
     worker := w |}.

Definition with_globals (g : Globals) (c : Config) : Config :=
  {| globals := g;
     audio_calls := audio_calls c;
     mode_calls := mode_calls c;
     worker := worker c |}.

(** The chunk that a step binds to [current_audio_chunk] at line 161,
    when the step is the worker's region of the lock and it pops. *)
Definition handed (c c' : Config) (a : action) : list bytes :=
  match a, worker c, worker c' with
  | WorkerStep, WTop, WHave (Some chunk) => [chunk]
  | _, _, _ => []
  end.

Section Taken.

Variable b64decode : Py.value -> Py.exn + bytes.
Variable from_raw : bytes -> option Py.exn.

(** The chunks the worker gets hold of along a schedule, in that order. *)
Fixpoint taken (c : Config) (sched : list action) : list bytes :=
  match sched with
  | [] => []
  | a :: sched' =>
      match exec b64decode from_raw c a with
      | Some (c', _) => handed c c' a ++ taken c' sched'
      | None => []
      end
  end.

End Taken.

(** The chunks appended, in the order of the appends. *)
Definition enqueued (out : list event) : list bytes :=
  flat_map (fun e => match e with Enqueued c => [c] | _ => [] end) out.

(** The chunks popped, in the order of the pops. *)
Definition dequeued (out : list event) : list bytes :=
  flat_map (fun e => match e with Dequeued c => [c] | _ => [] end) out.

(** How often the worker wrote the result slot. *)
Definition is_cleared (e : event) : bool :=
  match e with
  | Cleared => true
  | _ => false
  end.

(** Whether the queue was cleared. *)
Definition cleared (out : list event) : bool := existsb is_cleared out.

Definition is_published (e : event) : bool :=
  match e with
  | Published _ => true
  | _ => false
  end.

Definition published (out : list event) : nat :=
  length (List.filter is_published out).

Definition is_success_poll (e : event) : bool :=
  match e with
  | Returned (Reply (Transcription r) _) => String.eqb (status r) "success"
  | _ => false
  end.

(** How many polls were answered with status ["success"]. *)
Definition success_polls (out : list event) : nat :=
  length (List.filter is_success_poll out).

(** 1 when the slot holds a result with status ["success"], else 0. *)
Definition holds_success (c : Config) : nat :=
  if String.eqb (status (latest_transcription_result (globals c))) "success"
  then 1%nat else 0%nat.

Definition is_worker_action (a : action) : bool :=
  match a with
  | WorkerStep | EngineReturns _ => true
  | _ => false
  end.

Definition is_mode_action (a : action) : bool :=
  match a with
  | ModeBegin _ | ModeStep _ => true
  | _ => false
  end.

Arguments initial_config : clear implicits.

Definition online_globals : Globals := set_online true initial_globals.

(** ** Oracles for closed examples

    The statements below hold for every [b64decode] and every [from_raw].
    The closed examples run with these two. *)

Module Sample.

(** The value of a character of the Base64 alphabet. *)
Definition sextet (a : ascii) : option N :=
  let n := N_of_ascii a in
  if ((65 <=? n) && (n <=? 90))%N then Some (n - 65)%N
  else if ((97 <=? n) && (n <=? 122))%N then Some (n - 71)%N
  else if ((48 <=? n) && (n <=? 57))%N then Some (n + 4)%N
  else if (n =? 43)%N then Some 62%N
  else if (n =? 47)%N then Some 63%N
  else None.

Definition byte_of (n : N) : Byte.byte :=
  match Byte.of_N (n mod 256)%N with
  | Some b => b
  | None => Byte.x00
  end.

Definition pad : ascii := "="%char.

(** Groups of four characters; padding only in the last group. *)
Fixpoint quads (l : list ascii) : option bytes :=
  match l with
  | [] => Some []
  | a :: b :: c :: d :: rest =>
      match sextet a, sextet b with
      | Some x, Some y =>
          match sextet c, sextet d, rest with
          | Some z, Some w, _ =>
              let n := (((x * 64 + y) * 64 + z) * 64 + w)%N in
              match quads rest with
              | Some bs =>
                  Some (byte_of (n / 65536) :: byte_of (n / 256) :: byte_of n :: bs)
              | None => None
              end
          | Some z, None, [] =>
              if Ascii.eqb d pad then
                let n := ((x * 64 + y) * 64 + z)%N in
                Some [byte_of (n / 1024); byte_of (n / 4)]
              else None
          | None, None, [] =>
              if Ascii.eqb c pad && Ascii.eqb d pad then
                Some [byte_of ((x * 64 + y) / 16)]
              else None
          | _, _, _ => None
          end
      | _, _ => None
      end
  | _ => None
  end.

(** Base64 of a [str] in canonical form (alphabet characters only, a
    multiple of four of them, padded with [=]); anything else is
    refused. *)
Definition b64decode (v : Py.value) : Py.exn + bytes :=
  match v with
  | Py.VStr s =>
      match quads (list_ascii_of_string s) with
      | Some bs => inr bs
      | None => inl (Py.Raise Py.BinasciiError "Incorrect padding")
      end
  | _ =>
      inl (Py.Raise Py.TypeError
             "argument should be a bytes-like object or ASCII string")
  end.

(** A decoder that accepts every chunk: lines 166-179 raise on none. *)
Definition from_raw (chunk : bytes) : option Py.exn := None.

Definition initial_config : Config := initial_config.
Definition exec : Config -> action -> option (Config * list event) :=
  exec b64decode from_raw.
Definition run : Config -> list action -> option (Config * list event) :=
  run b64decode from_raw.

Definition serve_all : Config -> list request -> option (Config * list event) :=
  serve_all b64decode from_raw.

(** A request body [{key: v}]. *)
Definition body1 (key : string) (v : Py.value) : Py.value :=
  Py.VDict {[ key := v ]}.

(** The bodies [{"online_mode": true}] and [{"online_mode": false}]. *)
Definition mode_on : Py.value := body1 "online_mode" (Py.VBool true).
Definition mode_off : Py.value := body1 "online_mode" (Py.VBool false).

(** Two bodies for POST /audio: the Base64 text of [b"hi"] and of
    [b"\x00\x00"]. *)
Definition audio_hi : Py.value := body1 "audio_chunk" (Py.VStr "aGk=").
Definition audio_zero : Py.value := body1 "audio_chunk" (Py.VStr "AAA=").

Definition chunk_hi : bytes := [Byte.x68; Byte.x69].
Definition chunk_zero : bytes := [Byte.x00; Byte.x00].

(** A whole call of [set_mode] that sets the flag. *)
Definition go_online : list action := [ModeBegin mode_on; ModeStep 0; ModeStep 0].

(** A whole call of [set_mode] that clears the flag and the queue. *)
Definition go_offline : list action :=
  [ModeBegin mode_off; ModeStep 0; ModeStep 0; ModeStep 0; ModeStep 0].

(** A submission and a recognition overtaken by an offline transition:
    the worker is inside [recognize_google] on a first chunk and a second
    POST /audio has passed line 97 when POST /mode runs from line 130 to
    line 145; then the second call appends and the engine returns. *)
Definition overtaken : list action :=
  go_online ++
  [AudioBegin audio_hi; AudioAppend 0; WorkerStep; WorkerStep;
   AudioBegin audio_zero] ++
  go_offline ++
  [AudioAppend 0; EngineReturns (inr "hello"); WorkerStep].

(** The worker goes to wait on the empty queue, then the mode goes
    offline. *)
Definition wait_then_offline : list action :=
  go_online ++ [WorkerStep] ++ go_offline.

(** Two submissions whose appends come in the other order than their
    arrivals, then two pops. *)
Definition crossed : list action :=
  go_online ++
  [AudioBegin audio_hi; AudioBegin audio_zero; AudioAppend 1; AudioAppend 0;
   WorkerStep; WorkerStep; EngineReturns (inl (Py.Raise Py.UnknownValueError ""));
   WorkerStep].

(** One chunk recognised, then polled twice. *)
Definition polled_twice : list action :=
  go_online ++
  [AudioBegin audio_hi; AudioAppend 0; WorkerStep; WorkerStep;
   EngineReturns (inr "hello"); WorkerStep; Poll; Poll].

(** Three whole requests, one after the other. *)
Definition on_submit_off : list request :=
  [PostMode mode_on; PostAudio audio_hi; PostMode mode_off].

(** Where a schedule ends and what it has emitted. *)
Definition outcome (r : option (Config * list event)) : Config * list event :=
  match r with
  | Some x => x
  | None => (initial_config, [])
  end.

Definition overtaken_end : Config * list event :=
  Eval vm_compute in outcome (run initial_config overtaken).
Definition wait_then_offline_end : Config * list event :=
  Eval vm_compute in outcome (run initial_config wait_then_offline).
Definition crossed_end : Config * list event :=
  Eval vm_compute in outcome (run initial_config crossed).
Definition polled_twice_end : Config * list event :=
  Eval vm_compute in outcome (run initial_config polled_twice).
Definition on_submit_off_end : Config * list event :=
  Eval vm_compute in outcome (serve_all initial_config on_submit_off).

(** The worker inside [recognize_google] on [chunk_hi], [chunk_zero]
    queued behind. *)
Definition recognizing : Config :=
  {| globals := set_queue [chunk_zero] online_globals;
     audio_calls := [];
     mode_calls := [];
     worker := WRecognizing chunk_hi |}.

End Sample.

(** ** A decoder with an injected failure

    For the statements about a chunk on which lines 166-179 raise. *)

Module Injected.

(** Lines 166-179 raise on the chunk [b"\x00"] and on no other. *)
Definition from_raw (chunk : bytes) : option Py.exn :=
  match chunk with
  | [Byte.x00] => Some (Py.Raise Py.CouldntDecodeError "Decoding failed")
  | _ => None
  end.

Definition exec : Config -> action -> option (Config * list event) :=
  exec Sample.b64decode from_raw.
Definition run : Config -> list action -> option (Config * list event) :=
  run Sample.b64decode from_raw.


(** The chunk [b"\x00"] queued before a well-formed one; the worker goes
    through both. *)
Definition bad_then_good : list action :=
  Sample.go_online ++
  [AudioBegin (Sample.body1 "audio_chunk" (Py.VStr "AA==")); AudioAppend 0;
   AudioBegin Sample.audio_hi; AudioAppend 0;
   WorkerStep; WorkerStep; WorkerStep; WorkerStep;
   EngineReturns (inr "hi"); WorkerStep].

Definition bad_then_good_end : Config * list event :=
  Eval vm_compute in Sample.outcome (run Sample.initial_config bad_then_good).

End Injected.

(** ** The rest of the module *)

(** Lines 90-92, [index]. *)
Definition index : string := "Speech-to-Text Backend is running.".

Section VoskModel.

(** What [Model(model_path)] builds. *)
Variable model : Type.

(** [os.path.exists] and the constructor [vosk.Model], which returns the
    model or raises. *)
Variable os_path_exists : string -> bool.
Variable Model : string -> Py.exn + model.

(** Lines 67-81: the model ([None] for Python's [None]) and what is
    printed. *)
Definition load_vosk_model (model_path : string) : option model * list event :=
  if negb (os_path_exists model_path) then
    (None,
     [Print ("Vosk model not found at " +:+ model_path +:+ ". Attempting to download...");
      Print "Please download a Vosk model (e.g., vosk-model-en-us-0.22) and extract it to the 'vosk_models' directory."])
  else
    match Model model_path with
    | inr m => (Some m, [Print ("Vosk model loaded from " +:+ model_path)])
    | inl e =>
        (None,
         [Print ("Error loading Vosk model from " +:+ model_path +:+ ": " +:+ Py.msg e)])
    end.

End VoskModel.

(** ** Reading the slot off a trace *)

Definition result_eqb (r1 r2 : TranscriptionResult) : bool :=
  String.eqb (status r1) (status r2) && String.eqb (text r1) (text r2).

(** The slot after a trace, from the slot before it: a write of the
    worker replaces it, an answered poll must have returned it and leaves
    the idle value, nothing else touches it.  [None] when a poll returned
    something else than the slot held. *)
Fixpoint slot_after (s : TranscriptionResult) (out : list event)
  : option TranscriptionResult :=
  match out with
  | [] => Some s
  | Published r :: out' => slot_after r out'
  | Returned (Reply (Transcription r) _) :: out' =>
      if result_eqb r s then slot_after idle_result out' else None
  | _ :: out' => slot_after s out'
  end.

(** ** Iterations of the worker *)

(** [n] iterations of the loop body that take the [else] branch of line
    196: the region of the lock, then lines 163 and 197. *)
Definition idle_iterations (n : nat) : list action :=
  concat (repeat [WorkerStep; WorkerStep] n).

(** What the worker emits when it pops and drops the chunks of [q]. *)
Definition dropped (q : list bytes) : list event :=
  flat_map (fun chunk => [Dequeued chunk; Sleep 50]) q.

(** What the [if] of line 163 tests. *)
Definition chunk_truthy (current_audio_chunk : option bytes) : bool :=
  match current_audio_chunk with
  | Some (_ :: _) => true
  | _ => false
  end.

(** The reply of a successful POST /audio. *)
Definition audio_received : response :=
  Reply (StatusMessage "success" "Audio chunk received") 200.

(** ** More data for closed examples *)

Module Scenario.

(** A file system with one model directory, and a constructor that loads
    it. *)
Definition os_path_exists (path : string) : bool :=
  String.eqb path "vosk_models/vosk-model-en-us-0.22".

Definition Model (path : string) : Py.exn + string :=
  if String.eqb path "vosk_models/vosk-model-en-us-0.22" then inr path
  else inl (Py.Raise Py.OtherException "Failed to create a model").



(** The flag clear, two chunks left in the queue, the worker at the top
    of its loop. *)
Definition offline_with_leftovers : Config :=
  {| globals := set_queue [Sample.chunk_hi; Sample.chunk_zero] initial_globals;
     audio_calls := [];
     mode_calls := [];
     worker := WTop |}.

(** The flag set, nothing queued, the worker at the top of its loop. *)
Definition online_idle : Config :=
  {| globals := online_globals;
     audio_calls := [];
     mode_calls := [];
     worker := WTop |}.

End Scenario.

(** ** Tactics *)

(** Case analysis on one step: every piece is unfolded down to the
    events it emits. *)
Ltac step_cases H :=
  unfold exec, receive_audio_admit, receive_audio_append, get_transcription,
    set_mode_write, set_mode_step, worker_lock, worker_check, worker_engine,
    worker_publish in H;
  repeat (case_match; simplify_eq/=).

Ltac serve_cases H :=
  unfold serve, receive_audio, set_mode in H;
  unfold exec, receive_audio_admit, receive_audio_append, get_transcription,
    set_mode_write, set_mode_step, worker_lock, worker_check, worker_engine,
    worker_publish in H;
  repeat (case_match; simplify_eq/=).

(** ** Schedules *)

Section Schedules.

Variable b64decode : Py.value -> Py.exn + bytes.
Variable from_raw : bytes -> option Py.exn.

#[local] Abbreviation exec := (exec b64decode from_raw).
#[local] Abbreviation run := (run b64decode from_raw).
#[local] Abbreviation serve := (serve b64decode from_raw).
#[local] Abbreviation serve_all := (serve_all b64decode from_raw).

Lemma run_app (c : Config) (s1 s2 : list action) :
  run c (s1 ++ s2) =
  match run c s1 with
  | Some (c', out) =>
      match run c' s2 with
      | Some (c'', out') => Some (c'', out ++ out')
      | None => None
      end
  | None => None
  end.
Proof.
  revert c. induction s1 as [|a s1 IH]; intros c; simpl.
  - destruct (run c s2) as [[c'' out']|]; reflexivity.
  - destruct (exec c a) as [[c' out]|]; [|reflexivity].
    rewrite IH. destruct (run c' s1) as [[c1 out1]|]; [|reflexivity].
    destruct (run c1 s2) as [[c2 out2]|]; [|reflexivity].
    now rewrite app_assoc.
Qed.

(** A request served alone is a run of the pieces of its call, one
    after the other. *)
Lemma serve_is_run (c c' : Config) (q : request) (out : list event) :
  quiescent c ->
  serve c q = Some (c', out) ->
  quiescent c' /\ exists sched, run c sched = Some (c', out).
Proof.
  intros [Ha Hm] H. destruct c as [g ac mc w]. simpl in Ha, Hm. subst ac mc.
  destruct q as [data| |data| |r]; simpl in H.
  - unfold receive_audio in H.
    destruct (receive_audio_admit b64decode g data) as [[r o]|ad] eqn:E.
    + inversion H; subst; clear H. split; [split; reflexivity|].
      exists [AudioBegin data]. simpl. rewrite E.
      rewrite app_nil_r.
      replace (wake o w) with w; [reflexivity|].
      unfold receive_audio_admit in E.
      repeat match type of E with
             | context [if ?b then _ else _] => destruct b
             | context [match ?x with _ => _ end] => destruct x
             end; inversion E; reflexivity.
    + simpl in H. inversion H; subst; clear H. split; [split; reflexivity|].
      exists [AudioBegin data; AudioAppend 0]. simpl. rewrite E. simpl.
      reflexivity.
  - inversion H; subst; clear H. split; [split; reflexivity|].
    exists [Poll]. reflexivity.
  - unfold set_mode in H.
    destruct (set_mode_write g data) as [[r|g1] o] eqn:E.
    + inversion H; subst; clear H. split; [split; reflexivity|].
      exists [ModeBegin data]. simpl. rewrite E. rewrite app_nil_r.
      replace (wake o w) with w; [reflexivity|].
      unfold set_mode_write in E.
      repeat match type of E with
             | context [if ?b then _ else _] => destruct b
             | context [match ?x with _ => _ end] => destruct x
             end; inversion E; reflexivity.
    + assert (Ho : exists m, o = [Print m]).
      { unfold set_mode_write in E.
        repeat match type of E with
               | context [if ?b then _ else _] => destruct b
               | context [match ?x with _ => _ end] => destruct x
               end; inversion E; eauto. }
      destruct Ho as [m ->].
      destruct (web_online_mode g1) eqn:Eon; simpl in H;
        inversion H; subst; clear H; (split; [split; reflexivity|]).
      * exists [ModeBegin data; ModeStep 0; ModeStep 0]. simpl.
        rewrite E. simpl. rewrite Eon. simpl. rewrite Eon. reflexivity.
      * exists [ModeBegin data; ModeStep 0; ModeStep 0; ModeStep 0; ModeStep 0].
        simpl. rewrite E. simpl. rewrite Eon. simpl. rewrite Eon. reflexivity.
  - split; [|exists [WorkerStep]; simpl; rewrite H; now rewrite app_nil_r].
    destruct w; simpl in H;
      repeat match type of H with
             | context [let '(_, _) := ?x in _] => destruct x
             | (let (_, _) := ?x in _) = _ => destruct x
             end; inversion H; subst; split; reflexivity.
  - split; [|exists [EngineReturns r]; simpl; rewrite H; now rewrite app_nil_r].
    destruct w; simpl in H; try discriminate.
    destruct (worker_engine r); inversion H; subst; split; reflexivity.
Qed.

(** So a sequence of requests served one at a time is one of the runs of
    the threads. *)
Lemma serve_all_is_run (c c' : Config) (qs : list request) (out : list event) :
  quiescent c ->
  serve_all c qs = Some (c', out) ->
  quiescent c' /\ exists sched, run c sched = Some (c', out).
Proof.
  revert c out. induction qs as [|q qs IH]; intros c out Hq H; simpl in H.
  - inversion H; subst. split; [exact Hq|]. exists []. reflexivity.
  - destruct (serve c q) as [[c1 o1]|] eqn:E; [|discriminate].
    destruct (serve_all c1 qs) as [[c2 o2]|] eqn:E2; [|discriminate].
    inversion H; subst.
    destruct (serve_is_run _ _ _ _ Hq E) as [Hq1 [s1 R1]].
    destruct (IH _ _ Hq1 E2) as [Hq2 [s2 R2]].
    split; [exact Hq2|]. exists (s1 ++ s2).
    rewrite run_app, R1, R2. reflexivity.
Qed.

End Schedules.

(** ** The view functions, one call at a time *)

Section Views.

Variable b64decode : Py.value -> Py.exn + bytes.

#[local] Abbreviation receive_audio := (receive_audio b64decode).

Lemma dict_with_key_truthy (d : gmap string Py.value) (k : string) (v : Py.value) :
  d !! k = Some v ->
  Py.truthy (Py.VDict d) = true /\ Py.contains k (Py.VDict d) = inr true.
Proof.
  intros H. simpl. split.
  - rewrite bool_decide_eq_false_2; [reflexivity|].
    intros ->. rewrite lookup_empty in H. discriminate.
  - rewrite bool_decide_eq_true_2; [reflexivity|]. eauto.
Qed.

Lemma dict_without_key (d : gmap string Py.value) (k : string) :
  d !! k = None -> Py.contains k (Py.VDict d) = inr false.
Proof.
  intros H. simpl. rewrite bool_decide_eq_false_2; [reflexivity|].
  intros [x Hx]. congruence.
Qed.

(** When line 135 is reached, it has written the truth value of what
    the body holds under the key. *)
Lemma set_mode_write_inr (g g1 : Globals) (data : Py.value) (out : list event) :
  set_mode_write g data = (inr g1, out) ->
  exists v, Py.getitem data "online_mode" = inr v /\
            g1 = set_online (Py.truthy v) g /\
            out = [Print ("Backend: Online mode set to " +:+ Py.str_bool (Py.truthy v))].
Proof.
  unfold set_mode_write. intros H.
  destruct (negb (Py.truthy data)); [discriminate|].
  destruct (Py.contains "online_mode" data) as [e|[|]]; try discriminate.
  destruct (Py.getitem data "online_mode") as [e|v]; [discriminate|].
  inversion H; subst. eauto.
Qed.

(** [set_mode] never touches the global result slot. *)
Lemma set_mode_result (g : Globals) (data : Py.value) :
  latest_transcription_result (set_mode g data).1.1 = latest_transcription_result g.
Proof.
  unfold set_mode.
  destruct (set_mode_write g data) as [[r|g1] o] eqn:E; [reflexivity|].
  apply set_mode_write_inr in E as (v & _ & -> & _).
  simpl. destruct (Py.truthy v); reflexivity.
Qed.

(** On a body holding [v] under ["online_mode"]. *)
Lemma set_mode_present (g : Globals) (d : gmap string Py.value) (v : Py.value) :
  d !! "online_mode" = Some v ->
  set_mode g (Py.VDict d) =
  (if Py.truthy v then set_online true g else set_queue [] (set_online false g),
   Reply (StatusMode "success" (Py.truthy v)) 200,
   Print ("Backend: Online mode set to " +:+ Py.str_bool (Py.truthy v))
     :: (if Py.truthy v then [] else [Cleared])).
Proof.
  intros H. destruct (dict_with_key_truthy d _ v H) as [Ht Hc].
  unfold set_mode, set_mode_write. rewrite Ht, Hc. simpl. rewrite H.
  destruct (Py.truthy v); reflexivity.
Qed.

(** C10: POST /mode stores and echoes the Python truth value of what the
    body holds under ["online_mode"]: a call with a value [v] does what a
    call with the boolean [bool(v)] does.  A truthy [v] (the string
    ["false"] is one) sets the flag and leaves the queue alone; a falsy
    [v] ([false], [0], [""], [null]) clears the flag and the queue. *)
Theorem set_mode_coerces_truthiness
  (g : Globals) (d : gmap string Py.value) (v : Py.value) :
  d !! "online_mode" = Some v ->
  set_mode g (Py.VDict d) =
    set_mode g (Py.VDict {[ "online_mode" := Py.VBool (Py.truthy v) ]}) /\
  web_online_mode (set_mode g (Py.VDict d)).1.1 = Py.truthy v /\
  (set_mode g (Py.VDict d)).1.2 = Reply (StatusMode "success" (Py.truthy v)) 200 /\
  (Py.truthy v = true ->
     audio_chunk_queue (set_mode g (Py.VDict d)).1.1 = audio_chunk_queue g /\
     ~ In Cleared (set_mode g (Py.VDict d)).2) /\
  (Py.truthy v = false ->
     audio_chunk_queue (set_mode g (Py.VDict d)).1.1 = [] /\
     In Cleared (set_mode g (Py.VDict d)).2) /\
  Py.truthy (Py.VStr "false") = true /\
  Py.truthy (Py.VBool false) = false /\
  Py.truthy (Py.VInt 0) = false /\
  Py.truthy (Py.VStr "") = false /\
  Py.truthy Py.VNone = false.
Proof.
  intros H.
  rewrite (set_mode_present g d v H).
  rewrite (set_mode_present g {[ "online_mode" := Py.VBool (Py.truthy v) ]}
             (Py.VBool (Py.truthy v))) by apply lookup_singleton_eq.
  change (Py.truthy (Py.VBool (Py.truthy v))) with (Py.truthy v).
  destruct (Py.truthy v); simpl;
    repeat apply conj; try reflexivity; try (intros ?; discriminate).
  - intros _. split; [reflexivity|]. intros [E|[]]. discriminate E.
  - intros _. split; [reflexivity|]. right. left. reflexivity.
Qed.

(** On a body that is a JSON object or [null]: POST /audio returns 400
    and leaves the globals as they were exactly when the flag is clear,
    the body holds nothing under ["audio_chunk"], or [b64decode] raises on
    what it holds; otherwise it appends the decoded bytes at the end of the
    queue, notifies and returns 200 with status success. *)
Lemma receive_audio_object_body (g : Globals) (data : Py.value) :
  object_or_null data ->
  ((web_online_mode g = false \/
    field data "audio_chunk" = None \/
    (exists v e, field data "audio_chunk" = Some v /\ b64decode v = inl e)) /\
   exists m out,
     receive_audio g data = (g, Reply (StatusMessage "error" m) 400, out) /\
     forall c, ~ In (Enqueued c) out)
  \/
  (web_online_mode g = true /\
   exists v audio_data,
     field data "audio_chunk" = Some v /\
     b64decode v = inr audio_data /\
     receive_audio g data =
       (set_queue (audio_chunk_queue g ++ [audio_data]) g,
        Reply (StatusMessage "success" "Audio chunk received") 200,
        [Enqueued audio_data; Notify])).
Proof.
  intros Hobj. unfold receive_audio, receive_audio_admit.
  destruct (web_online_mode g) eqn:Eon; simpl.
  2:{ left. split; [auto|]. eexists _, []. split; [reflexivity|]. intros c []. }
  destruct Hobj as [->|[d ->]].
  { left. split; [right; left; reflexivity|].
    eexists _, []. split; [reflexivity|]. intros c []. }
  destruct (d !! "audio_chunk") as [v|] eqn:Ef.
  - destruct (dict_with_key_truthy d _ v Ef) as [Ht Hc].
    rewrite Ht, Hc. simpl. rewrite Ef.
    destruct (b64decode v) as [e|audio_data] eqn:Ed.
    + left. split; [right; right; simpl; eauto|].
      eexists _, _. split; [reflexivity|].
      intros c [E|[]]. discriminate.
    + right. split; [reflexivity|]. exists v, audio_data. simpl. auto.
  - left. split; [right; left; exact Ef|].
    rewrite (dict_without_key d _ Ef).
    destruct (negb (Py.truthy (Py.VDict d)));
      (eexists _, []; split; [reflexivity|]; intros c []).
Qed.

End Views.

(** ** The worker, one piece at a time *)

Section WorkerPieces.

Variable b64decode : Py.value -> Py.exn + bytes.
Variable from_raw : bytes -> option Py.exn.

#[local] Abbreviation exec := (exec b64decode from_raw).
#[local] Abbreviation run := (run b64decode from_raw).

(** The piece at the top of the loop blocks in [wait()] exactly on an
    empty queue with the flag set. *)
Lemma worker_lock_waits (g : Globals) :
  (worker_lock g).1.2 = WWaiting <->
  audio_chunk_queue g = [] /\ web_online_mode g = true.
Proof.
  unfold worker_lock.
  destruct (audio_chunk_queue g) as [|c q]; [destruct (web_online_mode g)|]; simpl;
    split; try discriminate; try tauto; intros [? ?]; discriminate.
Qed.


(** C8: when [recognize_google] raises [UnknownValueError] or
    [RequestError], the worker goes back to the top of its loop with the
    globals as they were: nothing is published, the chunk is not put back
    in the queue.  Nothing is printed in the first case, the message of
    line 191 in the second.  Its next piece pops the head of a non-empty
    queue. *)
Theorem worker_engine_failure (c : Config) (chunk : bytes) (e : Py.exn) :
  worker c = WRecognizing chunk ->
  Py.cls e = Py.UnknownValueError \/ Py.cls e = Py.RequestError ->
  exec c (EngineReturns (inl e)) =
    Some (with_worker WTop c,
          match Py.cls e with
          | Py.UnknownValueError => []
          | _ => [Print ("Could not request results from Google Speech Recognition service; "
                         +:+ Py.msg e)]
          end) /\
  forall next q,
    audio_chunk_queue (globals c) = next :: q ->
    exec (with_worker WTop c) WorkerStep =
      Some (with_worker (WHave (Some next)) (with_globals (set_queue q (globals c)) c),
            [Dequeued next]).
Proof.
  intros Hw Hcls. split.
  - unfold exec. rewrite Hw. unfold worker_engine.
    destruct Hcls as [-> | ->]; reflexivity.
  - intros next q Hq. unfold exec. simpl. unfold worker_lock. rewrite Hq.
    reflexivity.
Qed.

(** A worker blocked in [wait()] has no step of its own, and no piece of
    a view function but the append of POST /audio moves it. *)
Lemma waiting_worker_stays (c c' : Config) (a : action) (out : list event) :
  worker c = WWaiting ->
  exec c a = Some (c', out) ->
  (forall i, a <> AudioAppend i) ->
  worker c' = WWaiting.
Proof.
  intros Hw H Ha.
  destruct a; try (exfalso; eapply Ha; reflexivity);
    unfold exec in H; try rewrite Hw in H; try discriminate H.
  - destruct (receive_audio_admit b64decode (globals c) data) as [[r o]|ad];
      inversion H; subst; simpl; congruence.
  - simpl in H. inversion H; subst; simpl; congruence.
  - destruct (set_mode_write (globals c) data) as [[r|g] o];
      inversion H; subst; simpl; congruence.
  - destruct (mode_calls c !! i) as [pc|]; [|discriminate].
    destruct (set_mode_step (globals c) pc) as [[g [pc'|r]] o];
      inversion H; subst; simpl; congruence.
Qed.

(** C7, as the code has it: the piece at the top of the loop blocks in
    [wait()] exactly when the queue is empty and the flag set, and a
    worker blocked there has no step and is left blocked by every step
    but the append of POST /audio, those of [set_mode] included, so that
    it is still suspended in [wait()] when the flag is cleared.  An iteration that starts with the flag clear never waits: it
    pops the head of the queue if there is one, takes the sleep of line
    197 and is back at the top of the loop, with the flag still clear. *)
Theorem worker_waits_online_sleeps_offline (c : Config) :
  (worker c = WTop ->
   (forall c' out,
      exec c WorkerStep = Some (c', out) ->
      (worker c' = WWaiting <->
       audio_chunk_queue (globals c) = [] /\ web_online_mode (globals c) = true)) /\
   (web_online_mode (globals c) = false ->
    run c [WorkerStep; WorkerStep] =
      Some (with_globals (set_queue (tail (audio_chunk_queue (globals c))) (globals c)) c,
            match audio_chunk_queue (globals c) with
            | [] => [Sleep 50]
            | chunk :: _ => [Dequeued chunk; Sleep 50]
            end))) /\
  (worker c = WWaiting ->
   exec c WorkerStep = None /\
   forall a c' out,
     exec c a = Some (c', out) ->
     (forall i, a <> AudioAppend i) ->
     worker c' = WWaiting).
Proof.
  split.
  - intros Hw. split.
    + intros c' out H. unfold exec in H. rewrite Hw in H.
      pose proof (worker_lock_waits (globals c)) as L.
      destruct (worker_lock (globals c)) as [[g w] o]. simpl in L.
      inversion H; subst. exact L.
    + intros Hoff. destruct c as [g ac mc w]. simpl in *. subst w.
      unfold worker_lock. destruct g as [on q r]. simpl in *. subst on.
      destruct q as [|chunk q]; simpl.
      * reflexivity.
      * destruct chunk; reflexivity.
  - intros Hw. split.
    + unfold exec. rewrite Hw. reflexivity.
    + intros a c' out H Ha.
      exact (waiting_worker_stays c c' a out Hw H Ha).
Qed.

End WorkerPieces.

Section Traces.

Variable b64decode : Py.value -> Py.exn + bytes.
Variable from_raw : bytes -> option Py.exn.

#[local] Abbreviation exec := (exec b64decode from_raw).
#[local] Abbreviation run := (run b64decode from_raw).
#[local] Abbreviation serve := (serve b64decode from_raw).
#[local] Abbreviation serve_all := (serve_all b64decode from_raw).

Lemma enqueued_app (o1 o2 : list event) :
  enqueued (o1 ++ o2) = enqueued o1 ++ enqueued o2.
Proof. apply flat_map_app. Qed.

Lemma dequeued_app (o1 o2 : list event) :
  dequeued (o1 ++ o2) = dequeued o1 ++ dequeued o2.
Proof. apply flat_map_app. Qed.

Lemma cleared_app (o1 o2 : list event) :
  cleared (o1 ++ o2) = cleared o1 || cleared o2.
Proof. apply existsb_app. Qed.

(** One step and the queue: a step that clears leaves the queue empty and
    does nothing else to it; any other step keeps what was there, behind
    what it pops and before what it appends. *)
Lemma exec_queue (c c' : Config) (a : action) (out : list event) :
  exec c a = Some (c', out) ->
  if cleared out then
    audio_chunk_queue (globals c') = [] /\ dequeued out = [] /\ enqueued out = []
  else
    dequeued out ++ audio_chunk_queue (globals c') =
    audio_chunk_queue (globals c) ++ enqueued out.
Proof.
  intros H. step_cases H; rewrite ?app_nil_r; auto.
Qed.

Lemma run_cons (c c'' : Config) (a : action) (sched : list action) (out : list event) :
  run c (a :: sched) = Some (c'', out) ->
  exists c' o1 o2,
    exec c a = Some (c', o1) /\ run c' sched = Some (c'', o2) /\ out = o1 ++ o2.
Proof.
  simpl. intros H.
  destruct (exec c a) as [[c' o1]|]; [|discriminate].
  destruct (run c' sched) as [[c2 o2]|] eqn:E; [|discriminate].
  inversion H; subst. exists c', o1, o2. auto.
Qed.

(** The queue along a run in which nothing clears it. *)
Lemma run_queue_kept (c c' : Config) (sched : list action) (out : list event) :
  run c sched = Some (c', out) ->
  cleared out = false ->
  dequeued out ++ audio_chunk_queue (globals c') =
  audio_chunk_queue (globals c) ++ enqueued out.
Proof.
  revert c out. induction sched as [|a sched IH]; intros c out H Hnot.
  - inversion H; subst. simpl. now rewrite app_nil_r.
  - apply run_cons in H as (c1 & o1 & o2 & He & Hr & ->).
    rewrite dequeued_app, enqueued_app.
    rewrite cleared_app in Hnot. apply orb_false_elim in Hnot as [N1 N2].
    apply exec_queue in He. rewrite N1 in He.
    specialize (IH _ _ Hr N2).
    rewrite <- app_assoc, IH, app_assoc, He, app_assoc. reflexivity.
Qed.

(** The queue along any run: what was popped, followed by what is left,
    is what was there and what was appended, in that order, less what was
    cleared. *)
Lemma run_queue_sublist (c c' : Config) (sched : list action) (out : list event) :
  run c sched = Some (c', out) ->
  sublist (dequeued out ++ audio_chunk_queue (globals c'))
          (audio_chunk_queue (globals c) ++ enqueued out).
Proof.
  revert c out. induction sched as [|a sched IH]; intros c out H.
  - inversion H; subst. simpl. now rewrite app_nil_r.
  - apply run_cons in H as (c1 & o1 & o2 & He & Hr & ->).
    rewrite dequeued_app, enqueued_app.
    specialize (IH _ _ Hr).
    assert (S1 : sublist (dequeued o1 ++ audio_chunk_queue (globals c1))
                         (audio_chunk_queue (globals c) ++ enqueued o1)).
    { apply exec_queue in He.
      destruct (cleared o1).
      - destruct He as (-> & -> & _). apply sublist_nil_l.
      - now rewrite He. }
    rewrite <- app_assoc.
    transitivity (dequeued o1 ++ audio_chunk_queue (globals c1) ++ enqueued o2).
    + apply sublist_app; [reflexivity | exact IH].
    + rewrite !app_assoc. apply sublist_app; [exact S1 | reflexivity].
Qed.

(** What a step hands to the worker is what it pops. *)
Lemma exec_handed (c c' : Config) (a : action) (out : list event) :
  exec c a = Some (c', out) ->
  handed c c' a = dequeued out.
Proof.
  intros H. unfold handed.
  destruct a; step_cases H; simplify_eq/=; rewrite ?app_nil_r;
    try reflexivity; repeat case_match; try reflexivity; congruence.
Qed.

Lemma run_taken (c c' : Config) (sched : list action) (out : list event) :
  run c sched = Some (c', out) ->
  taken b64decode from_raw c sched = dequeued out.
Proof.
  revert c out. induction sched as [|a sched IH]; intros c out H.
  - inversion H; subst. reflexivity.
  - apply run_cons in H as (c1 & o1 & o2 & He & Hr & ->).
    simpl. rewrite He, dequeued_app, (exec_handed _ _ _ _ He), (IH _ _ Hr).
    reflexivity.
Qed.

(** C2: along every run of the threads, the chunks the worker gets hold
    of (the values bound to [current_audio_chunk] at line 161) are, in
    that order, the chunks popped off the head of the queue.  As long as
    no offline transition clears the queue, the chunks the worker got
    followed by the chunks still queued are exactly the chunks queued at
    the start followed by the chunks appended, in the order of the
    appends; with clears they are still chunks that were queued or
    appended, in that order, so the worker gets no append twice. *)
Theorem queue_is_fifo (c c' : Config) (sched : list action) (out : list event) :
  run c sched = Some (c', out) ->
  taken b64decode from_raw c sched = dequeued out /\
  (cleared out = false ->
   taken b64decode from_raw c sched ++ audio_chunk_queue (globals c') =
   audio_chunk_queue (globals c) ++ enqueued out) /\
  sublist (taken b64decode from_raw c sched ++ audio_chunk_queue (globals c'))
          (audio_chunk_queue (globals c) ++ enqueued out) /\
  (NoDup (audio_chunk_queue (globals c) ++ enqueued out) ->
   NoDup (taken b64decode from_raw c sched)).
Proof.
  intros H. rewrite (run_taken _ _ _ _ H). split; [reflexivity|].
  split; [|split].
  - now apply run_queue_kept with (sched := sched).
  - now apply run_queue_sublist with (sched := sched).
  - intros Hnd. apply run_queue_sublist in H.
    apply (sublist_NoDup _ _ Hnd).
    transitivity (dequeued out ++ audio_chunk_queue (globals c')); [|exact H].
    apply sublist_inserts_r. reflexivity.
Qed.

Lemma published_app (o1 o2 : list event) :
  published (o1 ++ o2) = (published o1 + published o2)%nat.
Proof. unfold published. now rewrite List.filter_app, length_app. Qed.

Lemma success_polls_app (o1 o2 : list event) :
  success_polls (o1 ++ o2) = (success_polls o1 + success_polls o2)%nat.
Proof. unfold success_polls. now rewrite List.filter_app, length_app. Qed.

(** One step and the slot: a poll answered with success empties a slot
    that held one, and only the worker's write fills it. *)
Lemma exec_success (c c' : Config) (a : action) (out : list event) :
  exec c a = Some (c', out) ->
  (success_polls out + holds_success c' <= published out + holds_success c)%nat.
Proof.
  intros H. unfold holds_success, success_polls, published.
  step_cases H; rewrite ?List.filter_app, ?length_app; simpl;
    repeat case_match; simpl; lia.
Qed.

Lemma run_success (c c' : Config) (sched : list action) (out : list event) :
  run c sched = Some (c', out) ->
  (success_polls out + holds_success c' <= published out + holds_success c)%nat.
Proof.
  revert c out. induction sched as [|a sched IH]; intros c out H.
  - inversion H; subst. simpl. lia.
  - apply run_cons in H as (c1 & o1 & o2 & He & Hr & ->).
    apply exec_success in He. apply IH in Hr.
    rewrite success_polls_app, published_app. lia.
Qed.

(** No piece of a view function fills the slot. *)
Lemma exec_idle_kept (c c' : Config) (a : action) (out : list event) :
  is_worker_action a = false ->
  exec c a = Some (c', out) ->
  latest_transcription_result (globals c) = idle_result ->
  latest_transcription_result (globals c') = idle_result.
Proof.
  intros Ha H Hidle. step_cases H; auto; discriminate.
Qed.

Lemma run_idle_kept (c c' : Config) (sched : list action) (out : list event) :
  forallb (fun a => negb (is_worker_action a)) sched = true ->
  run c sched = Some (c', out) ->
  latest_transcription_result (globals c) = idle_result ->
  latest_transcription_result (globals c') = idle_result.
Proof.
  revert c out. induction sched as [|a sched IH]; intros c out Hs H Hidle.
  - inversion H; subst. exact Hidle.
  - apply run_cons in H as (c1 & o1 & o2 & He & Hr & ->).
    simpl in Hs. apply andb_prop in Hs as [Ha Hs].
    apply negb_true_iff in Ha.
    eapply IH; eauto using exec_idle_kept.
Qed.

(** C3: a poll returns the slot and leaves [{"status": "idle", "text": ""}]
    in it, in one region of the lock; after a poll, whatever the view
    functions do while the worker does not move, the next poll returns the
    idle value; and along every run the polls answered with status success
    are at most as many as the results the worker has written (and the one
    the slot held at the start), less the one still in the slot. *)
Theorem poll_is_destructive (c c' : Config) (sched : list action) (out : list event) :
  run c sched = Some (c', out) ->
  (success_polls out + holds_success c' <= published out + holds_success c)%nat /\
  exec c' Poll =
    Some (with_globals (set_result idle_result (globals c')) c',
          [Returned (Reply (Transcription (latest_transcription_result (globals c'))) 200)]) /\
  forall sched2 c2 out2,
    forallb (fun a => negb (is_worker_action a)) sched2 = true ->
    run (with_globals (set_result idle_result (globals c')) c') sched2 = Some (c2, out2) ->
    exec c2 Poll =
      Some (with_globals (set_result idle_result (globals c2)) c2,
            [Returned (Reply (Transcription idle_result) 200)]).
Proof.
  intros H. split; [|split].
  - now apply run_success with (sched := sched).
  - reflexivity.
  - intros sched2 c2 out2 Hs H2.
    apply run_idle_kept in H2; [|exact Hs|reflexivity].
    unfold exec, get_transcription. rewrite H2. reflexivity.
Qed.

(** The worker is never blocked in [wait()] over a non-empty queue. *)
Lemma exec_waiting_empty (c c' : Config) (a : action) (out : list event) :
  exec c a = Some (c', out) ->
  (worker c = WWaiting -> audio_chunk_queue (globals c) = []) ->
  worker c' = WWaiting -> audio_chunk_queue (globals c') = [].
Proof.
  intros H Hinv Hw. step_cases H; auto; try discriminate;
    try (destruct (worker c); discriminate).
Qed.

Lemma run_waiting_empty (c c' : Config) (sched : list action) (out : list event) :
  run c sched = Some (c', out) ->
  (worker c = WWaiting -> audio_chunk_queue (globals c) = []) ->
  worker c' = WWaiting -> audio_chunk_queue (globals c') = [].
Proof.
  revert c out. induction sched as [|a sched IH]; intros c out H Hinv.
  - inversion H; subst. exact Hinv.
  - apply run_cons in H as (c1 & o1 & o2 & He & Hr & ->).
    eapply IH; eauto using exec_waiting_empty.
Qed.

(** C6, as the code has it: in every state the threads can reach, the
    worker is not blocked in [wait()] while a chunk is queued; a step that
    appends a chunk calls [notify()] in the same region of the lock and
    leaves no worker blocked; a step of [set_mode], the clearing of the
    queue included, never calls [notify()] and leaves the worker where it
    was, blocked if it was blocked. *)
Theorem enqueue_notifies_mode_does_not
  (sched : list action) (c : Config) (out : list event) :
  run initial_config sched = Some (c, out) ->
  (worker c = WWaiting -> audio_chunk_queue (globals c) = []) /\
  forall a c' out',
    exec c a = Some (c', out') ->
    (enqueued out' <> [] ->
       existsb is_notify out' = true /\ worker c' <> WWaiting) /\
    (is_mode_action a = true ->
       existsb is_notify out' = false /\ worker c' = worker c).
Proof.
  intros H. split.
  - eapply run_waiting_empty; [exact H|]. discriminate.
  - intros a c' out' He. split.
    + intros Henq. step_cases He; try (exfalso; apply Henq; rewrite ?app_nil_r; reflexivity).
      split; [reflexivity|]. destruct (worker c); discriminate.
    + intros Ha. step_cases He; try discriminate; auto.
Qed.

(** Served one at a time, the requests keep the queue empty whenever the
    flag is clear. *)
Lemma serve_offline_empty (c c' : Config) (q : request) (out : list event) :
  serve c q = Some (c', out) ->
  (web_online_mode (globals c) = false -> audio_chunk_queue (globals c) = []) ->
  web_online_mode (globals c') = false -> audio_chunk_queue (globals c') = [].
Proof.
  intros H Hinv Hoff. serve_cases H; auto; try congruence;
    try (specialize (Hinv Hoff); congruence);
    try (rewrite Hoff in *; discriminate).
Qed.

(** C1, as the code has it: when the calls of the view functions do not
    overlap (each runs to its return before the next starts, pieces of the
    worker in between), the queue is empty in every state in which the
    flag is clear. *)
Theorem offline_queue_empty_serial
  (qs : list request) (c : Config) (out : list event) :
  serve_all initial_config qs = Some (c, out) ->
  web_online_mode (globals c) = false ->
  audio_chunk_queue (globals c) = [].
Proof.
  assert (G : forall qs c0 c out,
             serve_all c0 qs = Some (c, out) ->
             (web_online_mode (globals c0) = false ->
              audio_chunk_queue (globals c0) = []) ->
             web_online_mode (globals c) = false ->
             audio_chunk_queue (globals c) = []).
  { clear. induction qs as [|q qs IH]; intros c0 c out H Hinv.
    - inversion H; subst. exact Hinv.
    - simpl in H. destruct (serve c0 q) as [[c1 o1]|] eqn:E; [|discriminate].
      destruct (serve_all c1 qs) as [[c2 o2]|] eqn:E2; [|discriminate].
      inversion H; subst.
      eapply IH; eauto using serve_offline_empty. }
  intros H. eapply G; [exact H|]. reflexivity.
Qed.

End Traces.

(** ** Further properties of the view functions *)

Section MoreViews.

Variable b64decode : Py.value -> Py.exn + bytes.
Variable from_raw : bytes -> option Py.exn.

#[local] Abbreviation receive_audio := (receive_audio b64decode).
#[local] Abbreviation serve_all := (serve_all b64decode from_raw).

(** A body that passes line 101 and whose field decodes is appended. *)
Lemma receive_audio_accepts (g : Globals) (data v : Py.value) (chunk : bytes) :
  web_online_mode g = true ->
  field data "audio_chunk" = Some v ->
  b64decode v = inr chunk ->
  receive_audio g data =
    (set_queue (audio_chunk_queue g ++ [chunk]) g, audio_received,
     [Enqueued chunk; Notify]).
Proof.
  intros Hon Hf Hd. destruct data; try discriminate Hf. simpl in Hf.
  destruct (dict_with_key_truthy d _ v Hf) as [Ht Hc].
  unfold receive_audio, receive_audio_admit.
  rewrite Hon, Ht, Hc. simpl. rewrite Hf, Hd. reflexivity.
Qed.

(** X1: POST /audio, for every body: either the flag is set, the body is a
    JSON object whose ["audio_chunk"] decodes, and the call appends the
    chunk, notifies and replies 200; or the call changes nothing, appends
    and notifies nothing, and replies 400 or, only with the flag set, lets
    a [TypeError] escape.  With the flag clear the reply is the 400 of
    line 98 whatever the body. *)
Theorem receive_audio_outcomes (g : Globals) (data : Py.value) :
  ((receive_audio g data).1.2 = audio_received /\
   web_online_mode g = true /\
   exists d v chunk,
     data = Py.VDict d /\ d !! "audio_chunk" = Some v /\ b64decode v = inr chunk /\
     (receive_audio g data).1.1 = set_queue (audio_chunk_queue g ++ [chunk]) g /\
     (receive_audio g data).2 = [Enqueued chunk; Notify])
  \/
  ((receive_audio g data).1.1 = g /\
   enqueued (receive_audio g data).2 = [] /\
   existsb is_notify (receive_audio g data).2 = false /\
   (web_online_mode g = false ->
    (receive_audio g data).1.2 =
      Reply (StatusMessage "error" "Online mode is not active") 400) /\
   ((exists m, (receive_audio g data).1.2 = Reply (StatusMessage "error" m) 400) \/
    (web_online_mode g = true /\
     exists m, (receive_audio g data).1.2 = Unhandled (Py.Raise Py.TypeError m)))).
Proof.
  unfold receive_audio, receive_audio_admit.
  destruct (web_online_mode g) eqn:Eon; simpl.
  2:{ right. repeat split; try reflexivity. left. eauto. }
  destruct data as [|b|z|f|s0|l|d].
  - right. simpl. repeat split; try reflexivity; try discriminate. left. eauto.
  - right. destruct b; simpl; repeat split; try reflexivity; try discriminate;
      [right; split; eauto | left; eauto].
  - right. simpl. destruct (z =? 0); simpl;
      repeat split; try reflexivity; try discriminate;
      [left; eauto | right; split; eauto].
  - right. destruct f; simpl; repeat split; try reflexivity; try discriminate;
      try (left; eauto; fail); right; split; eauto.
  - right. simpl. destruct (String.eqb s0 ""); simpl;
      [|destruct (Py.occurs "audio_chunk" s0)]; simpl;
      repeat split; try reflexivity; try discriminate;
      try (left; eauto; fail); right; split; eauto.
  - right. simpl. destruct l as [|x l]; simpl;
      [|destruct (Py.eq_str "audio_chunk" x || existsb (Py.eq_str "audio_chunk") l)];
      simpl; repeat split; try reflexivity; try discriminate;
      try (left; eauto; fail); right; split; eauto.
  - destruct (d !! "audio_chunk") as [v|] eqn:Ef.
    + destruct (dict_with_key_truthy d _ v Ef) as [Ht Hc].
      rewrite Ht, Hc. simpl. rewrite Ef.
      destruct (b64decode v) as [e|chunk] eqn:Ed; simpl.
      * right. repeat split; try reflexivity; try discriminate. left. eauto.
      * left. repeat split. exists d, v, chunk. auto.
    + rewrite (dict_without_key d _ Ef).
      right. destruct (negb (Py.truthy (Py.VDict d))); simpl;
        repeat split; try reflexivity; try discriminate; left; eauto.
Qed.

(** X2: POST /mode, for every body: either the body is a JSON object holding
    [v] under ["online_mode"] and the reply is 200 with [bool(v)]; or the
    call changes nothing and prints nothing, and replies the 400 of line
    133 or lets a [TypeError] escape. *)
Theorem set_mode_outcomes (g : Globals) (data : Py.value) :
  (exists d v,
     data = Py.VDict d /\ d !! "online_mode" = Some v /\
     (set_mode g data).1.2 = Reply (StatusMode "success" (Py.truthy v)) 200)
  \/
  ((set_mode g data).1.1 = g /\
   (set_mode g data).2 = [] /\
   ((set_mode g data).1.2 =
      Reply (StatusMessage "error" "No online_mode provided") 400 \/
    exists m, (set_mode g data).1.2 = Unhandled (Py.Raise Py.TypeError m))).
Proof.
  destruct data as [|b|z|f|s0|l|d].
  - right. repeat split. left. reflexivity.
  - right. destruct b; repeat split; [right; eexists; reflexivity | left; reflexivity].
  - right. unfold set_mode, set_mode_write. simpl.
    destruct (z =? 0); simpl; repeat split; [left; reflexivity | right; eexists; reflexivity].
  - right. destruct f; repeat split;
      try (left; reflexivity); right; eexists; reflexivity.
  - right. unfold set_mode, set_mode_write. simpl.
    destruct (String.eqb s0 ""); simpl;
      [|destruct (Py.occurs "online_mode" s0)]; simpl; repeat split;
      try (left; reflexivity); right; eexists; reflexivity.
  - right. unfold set_mode, set_mode_write. simpl.
    destruct l as [|x l]; simpl;
      [|destruct (Py.eq_str "online_mode" x || existsb (Py.eq_str "online_mode") l)];
      simpl; repeat split; try (left; reflexivity); right; eexists; reflexivity.
  - destruct (d !! "online_mode") as [v|] eqn:Ef.
    + left. exists d, v. rewrite (set_mode_present g d v Ef). auto.
    + right. unfold set_mode, set_mode_write.
      rewrite (dict_without_key d _ Ef).
      destruct (negb (Py.truthy (Py.VDict d))); simpl; repeat split; left; reflexivity.
Qed.

(** X3: POST /mode twice with the same body leaves the globals and the reply
    of the first call. *)
Theorem set_mode_idempotent (g : Globals) (data : Py.value) :
  (set_mode (set_mode g data).1.1 data).1 = (set_mode g data).1.
Proof.
  unfold set_mode.
  destruct (set_mode_write g data) as [[r|g1] o] eqn:E.
  - simpl. rewrite E. reflexivity.
  - pose proof E as E'.
    apply set_mode_write_inr in E' as (v & Hget & -> & ->).
    assert (W : forall g', set_mode_write g' data =
                  (inr (set_online (Py.truthy v) g'),
                   [Print ("Backend: Online mode set to " +:+ Py.str_bool (Py.truthy v))])).
    { intros g'. unfold set_mode_write in *.
      destruct (negb (Py.truthy data)); [discriminate|].
      destruct (Py.contains "online_mode" data) as [e|[|]]; try discriminate.
      rewrite Hget. reflexivity. }
    destruct (Py.truthy v) eqn:Ev; simpl; rewrite W; reflexivity.
Qed.

(** X4: Submissions served one after the other with the flag set are queued
    in the order of the calls, behind what was queued. *)
Theorem serial_submissions_keep_order
  (c : Config) (bodies : list Py.value) (chunks : list bytes) :
  web_online_mode (globals c) = true ->
  Forall2 (fun data chunk =>
             exists v, field data "audio_chunk" = Some v /\ b64decode v = inr chunk)
          bodies chunks ->
  exists c' out,
    serve_all c (map PostAudio bodies) = Some (c', out) /\
    web_online_mode (globals c') = true /\
    audio_chunk_queue (globals c') = audio_chunk_queue (globals c) ++ chunks /\
    enqueued out = chunks.
Proof.
  intros Hon HF. revert c Hon.
  induction HF as [|data chunk bodies chunks (v & Hf & Hd) HF IH]; intros c Hon.
  - exists c, []. simpl. rewrite app_nil_r. auto.
  - simpl. rewrite (receive_audio_accepts _ _ v chunk Hon Hf Hd).
    match goal with
    | |- context [serve_all ?c1 _] =>
        destruct (IH c1 Hon) as (c' & out & Hs & Hon' & Hq & He)
    end.
    rewrite Hs. eexists _, _. split; [reflexivity|]. split; [exact Hon'|].
    split.
    + rewrite Hq. simpl. now rewrite <- app_assoc.
    + simpl. now rewrite He.
Qed.

End MoreViews.

(** ** Further properties of the worker and of the runs *)

Section MoreWorker.

Variable b64decode : Py.value -> Py.exn + bytes.
Variable from_raw : bytes -> option Py.exn.

#[local] Abbreviation exec := (exec b64decode from_raw).
#[local] Abbreviation run := (run b64decode from_raw).
#[local] Abbreviation serve_all := (serve_all b64decode from_raw).

(** One iteration with the flag clear. *)
Lemma offline_iteration (c : Config) :
  worker c = WTop ->
  web_online_mode (globals c) = false ->
  run c [WorkerStep; WorkerStep] =
    Some (with_globals (set_queue (tail (audio_chunk_queue (globals c))) (globals c)) c,
          match audio_chunk_queue (globals c) with
          | [] => [Sleep 50]
          | chunk :: _ => [Dequeued chunk; Sleep 50]
          end).
Proof.
  intros Hw Hoff. destruct c as [g ac mc w]. simpl in *. subst w.
  unfold worker_lock. destruct g as [on q r]. simpl in *. subst on.
  destruct q as [|chunk q]; simpl; [reflexivity|]. destruct chunk; reflexivity.
Qed.

Lemma with_globals_same_queue (c : Config) :
  audio_chunk_queue (globals c) = [] ->
  with_globals (set_queue [] (globals c)) c = c.
Proof.
  destruct c as [[on q r] ac mc w]. simpl. intros ->. reflexivity.
Qed.

(** Iterations from the top of the loop with the flag clear. *)
Lemma offline_iterations (c : Config) (n : nat) :
  worker c = WTop ->
  web_online_mode (globals c) = false ->
  run c (idle_iterations (length (audio_chunk_queue (globals c)) + n)) =
    Some (with_globals (set_queue [] (globals c)) c,
          dropped (audio_chunk_queue (globals c)) ++ repeat (Sleep 50) n).
Proof.
  remember (audio_chunk_queue (globals c)) as q eqn:Eq.
  revert c Eq. induction q as [|chunk q IH]; intros c Eq Hw Hoff.
  - simpl. revert c Eq Hw Hoff.
    induction n as [|n IHn]; intros c Eq Hw Hoff.
    + simpl. now rewrite with_globals_same_queue.
    + unfold idle_iterations. simpl repeat. simpl concat.
      change (WorkerStep :: WorkerStep :: concat (repeat [WorkerStep; WorkerStep] n))
        with ([WorkerStep; WorkerStep] ++ idle_iterations n).
      rewrite run_app, (offline_iteration c Hw Hoff), <- Eq. simpl tail.
      rewrite (IHn (with_globals (set_queue [] (globals c)) c)); auto.
  - unfold idle_iterations. simpl length. simpl repeat. simpl concat.
    change (WorkerStep :: WorkerStep
              :: concat (repeat [WorkerStep; WorkerStep] (length q + n)))
      with ([WorkerStep; WorkerStep] ++ idle_iterations (length q + n)).
    rewrite run_app, (offline_iteration c Hw Hoff), <- Eq. simpl tail.
    rewrite (IH (with_globals (set_queue q (globals c)) c)); auto.
Qed.

(** X5: With the flag clear and the worker left alone: a worker at the top
    of its loop pops and drops every chunk the queue holds, one per
    iteration, and then goes on polling, each iteration sleeping 50 ms,
    none waiting, decoding or publishing; a worker blocked in [wait()]
    does not move at all. *)
Theorem offline_worker_drains_and_polls (c : Config) (n : nat) :
  web_online_mode (globals c) = false ->
  (worker c = WTop ->
   run c (idle_iterations (length (audio_chunk_queue (globals c)) + n)) =
     Some (with_globals (set_queue [] (globals c)) c,
           dropped (audio_chunk_queue (globals c)) ++ repeat (Sleep 50) n)) /\
  (worker c = WWaiting ->
   run c (idle_iterations (S n)) = None).
Proof.
  intros Hoff. split.
  - intros Hw. now apply offline_iterations.
  - intros Hw. unfold idle_iterations. simpl. rewrite Hw. reflexivity.
Qed.

(** X6: Line 163: the popped chunk is dropped, with the sleep of line 197,
    exactly when it is [None] or empty or the flag is clear; the globals
    are never touched. *)
Theorem worker_drops_chunk_iff (c : Config) (current_audio_chunk : option bytes) :
  worker c = WHave current_audio_chunk ->
  (exists w out,
     exec c WorkerStep = Some (with_worker w c, out) /\
     published out = 0%nat /\
     ((w, out) = (WTop, [Sleep 50]) <->
      chunk_truthy current_audio_chunk && web_online_mode (globals c) = false)).
Proof.
  intros Hw. unfold exec. rewrite Hw. unfold worker_check.
  destruct current_audio_chunk as [[|b bs]|]; simpl.
  - eexists _, _. split; [reflexivity|]. split; [reflexivity|]. tauto.
  - destruct (web_online_mode (globals c)); simpl.
    + destruct (from_raw (b :: bs)) as [e|]; eexists _, _;
        (split; [reflexivity|]); (split; [reflexivity|]);
        split; intros H; discriminate H.
    + eexists _, _. split; [reflexivity|]. split; [reflexivity|]. tauto.
  - eexists _, _. split; [reflexivity|]. split; [reflexivity|]. tauto.
Qed.

(** X7: Whatever [recognize_google] raises, the worker is back at the top
    of its loop with the globals as they were: nothing is published and
    there is no sleep.  [UnknownValueError] alone prints nothing. *)
Theorem recognition_failure_is_contained (c : Config) (chunk : bytes) (e : Py.exn) :
  worker c = WRecognizing chunk ->
  exists out,
    exec c (EngineReturns (inl e)) = Some (with_worker WTop c, out) /\
    published out = 0%nat /\
    (forall ms, ~ In (Sleep ms) out) /\
    (out = [] <-> Py.cls e = Py.UnknownValueError).
Proof.
  intros Hw. unfold exec. rewrite Hw. unfold worker_engine.
  destruct (Py.cls e); eexists; (split; [reflexivity|]);
    (split; [reflexivity|]); (split; [intros ms [H|[]]; discriminate H|]) ||
    (split; [intros ms []|]); split; intros H; try discriminate H; reflexivity.
Qed.

(** X8: A text that [recognize_google] returns is written to the slot,
    whatever the slot held and whatever the flag is by then: line 186 is
    not guarded by [web_online_mode]. *)
Theorem recognised_text_is_published (c : Config) (chunk : bytes) (text : string) :
  worker c = WRecognizing chunk ->
  run c [EngineReturns (inr text); WorkerStep] =
    Some (with_worker WTop
            (with_globals (set_result (success_result text) (globals c)) c),
          [Print ("Backend Recognized (Google): " +:+ text);
           Published (success_result text)]).
Proof.
  intros Hw. simpl. rewrite Hw. reflexivity.
Qed.


(** The slot along a step, read off what the step emits. *)
Lemma exec_slot_after (c c' : Config) (a : action) (out : list event) :
  exec c a = Some (c', out) ->
  forall k,
    slot_after (latest_transcription_result (globals c)) (out ++ k) =
    slot_after (latest_transcription_result (globals c')) k.
Proof.
  intros H k.
  destruct a; try (step_cases H; rewrite ?app_nil_r; reflexivity).
  simpl in H. inversion H; subst; clear H. simpl.
  unfold result_eqb. now rewrite !String.eqb_refl.
Qed.

(** X10: The slot is a one-place mailbox: along every run of the threads, each
    poll returned what the slot held at that moment and left the idle
    value, each write of the worker replaced what was there, and no other
    step touched the slot. *)
Theorem slot_follows_trace (c c' : Config) (sched : list action) (out : list event) :
  run c sched = Some (c', out) ->
  slot_after (latest_transcription_result (globals c)) out =
    Some (latest_transcription_result (globals c')).
Proof.
  revert c out. induction sched as [|a sched IH]; intros c out H.
  - inversion H; subst. reflexivity.
  - apply run_cons in H as (c1 & o1 & o2 & He & Hr & ->).
    rewrite (exec_slot_after _ _ _ _ He). now apply IH.
Qed.

Lemma exec_slot_shape (c c' : Config) (a : action) (out : list event) :
  exec c a = Some (c', out) ->
  (latest_transcription_result (globals c) = idle_result \/
   exists t, latest_transcription_result (globals c) = success_result t) ->
  latest_transcription_result (globals c') = idle_result \/
  exists t, latest_transcription_result (globals c') = success_result t.
Proof.
  intros H Hs. step_cases H; eauto.
Qed.

(** X11: From start on the slot holds the idle value or a success with a text
    of the engine: no step of the module stores another status. *)
Theorem slot_is_idle_or_success (sched : list action) (c : Config) (out : list event) :
  run initial_config sched = Some (c, out) ->
  latest_transcription_result (globals c) = idle_result \/
  exists t, latest_transcription_result (globals c) = success_result t.
Proof.
  assert (G : forall sched c0 c out,
             run c0 sched = Some (c, out) ->
             (latest_transcription_result (globals c0) = idle_result \/
              exists t, latest_transcription_result (globals c0) = success_result t) ->
             latest_transcription_result (globals c) = idle_result \/
             exists t, latest_transcription_result (globals c) = success_result t).
  { clear. induction sched as [|a sched IH]; intros c0 c out H Hs.
    - inversion H; subst. exact Hs.
    - apply run_cons in H as (c1 & o1 & o2 & He & Hr & ->).
      eapply IH; eauto using exec_slot_shape. }
  intros H. eapply G; [exact H|]. left. reflexivity.
Qed.

(** X12: Which globals a step may change: a piece of POST /audio only appends
    to the queue; a poll only resets the slot; a piece of POST /mode only
    writes the flag or empties the queue; a piece of the worker only pops
    the head of the queue or writes a success to the slot. *)
Theorem step_frame (c c' : Config) (a : action) (out : list event) :
  exec c a = Some (c', out) ->
  match a with
  | AudioBegin _ | EngineReturns _ => globals c' = globals c
  | AudioAppend _ =>
      exists chunk,
        globals c' = set_queue (audio_chunk_queue (globals c) ++ [chunk]) (globals c)
  | Poll => globals c' = set_result idle_result (globals c)
  | ModeBegin _ =>
      globals c' = globals c \/
      exists b, globals c' = set_online b (globals c)
  | ModeStep _ =>
      globals c' = globals c \/ globals c' = set_queue [] (globals c)
  | WorkerStep =>
      globals c' = globals c \/
      (exists chunk,
         audio_chunk_queue (globals c) = chunk :: audio_chunk_queue (globals c') /\
         globals c' = set_queue (audio_chunk_queue (globals c')) (globals c)) \/
      exists t, globals c' = set_result (success_result t) (globals c)
  end.
Proof.
  intros H. destruct a; step_cases H; simplify_eq/=; eauto.
Qed.

(** X13: From a chunk to its text: with the flag set, the queue empty and the
    worker at the top of its loop or blocked in [wait()], a POST /audio
    whose chunk decodes, one iteration of the worker in which the engine
    returns [text], and two polls: the first poll returns
    [{"status": "success", "text": text}], the second the idle value. *)
Theorem submitted_chunk_is_transcribed
  (c : Config) (data v : Py.value) (chunk : bytes) (text : string) :
  web_online_mode (globals c) = true ->
  audio_chunk_queue (globals c) = [] ->
  worker c = WTop \/ worker c = WWaiting ->
  field data "audio_chunk" = Some v ->
  b64decode v = inr chunk ->
  chunk <> [] ->
  from_raw chunk = None ->
  serve_all c [PostAudio data; Worker; Worker; Engine (inr text); Worker;
               GetTranscription; GetTranscription] =
    Some ({| globals := set_result idle_result (globals c);
             audio_calls := audio_calls c;
             mode_calls := mode_calls c;
             worker := WTop |},
          [Enqueued chunk; Notify; Returned audio_received;
           Dequeued chunk;
           Print ("Backend Recognized (Google): " +:+ text);
           Published (success_result text);
           Returned (Reply (Transcription (success_result text)) 200);
           Returned (Reply (Transcription idle_result) 200)]).
Proof.
  intros Hon Hq Hw Hf Hd Hne Hraw.
  destruct c as [[on q r] ac mc w]. simpl in Hon, Hq, Hw. subst on q.
  destruct chunk as [|b bs]; [congruence|].
  cbn -[receive_audio wake].
  rewrite (receive_audio_accepts b64decode
             {| web_online_mode := true; audio_chunk_queue := [];
                latest_transcription_result := r |} data v (b :: bs) eq_refl Hf Hd).
  assert (Hwake : wake [Enqueued (b :: bs); Notify] w = WTop)
    by (destruct Hw as [-> | ->]; reflexivity).
  rewrite Hwake. simpl. rewrite Hraw. reflexivity.
Qed.

End MoreWorker.

(** ** [load_vosk_model] *)

Section MoreVosk.

Variable model : Type.
Variable os_path_exists : string -> bool.
Variable Model : string -> Py.exn + model.

#[local] Abbreviation load := (load_vosk_model model os_path_exists Model).

(** X14: [load_vosk_model] returns a model exactly when the path exists and
    [Model] builds one, and then it is that model; otherwise it returns
    [None], without calling [Model] on a missing path and without letting
    the exception of [Model] escape.  In every case it prints why. *)
Theorem load_vosk_model_result (model_path : string) :
  (forall m,
     (load model_path).1 = Some m <->
     os_path_exists model_path = true /\ Model model_path = inr m) /\
  ((load model_path).1 = None <->
   os_path_exists model_path = false \/ exists e, Model model_path = inl e) /\
  (os_path_exists model_path = false ->
   (load model_path).2 =
     [Print ("Vosk model not found at " +:+ model_path +:+ ". Attempting to download...");
      Print "Please download a Vosk model (e.g., vosk-model-en-us-0.22) and extract it to the 'vosk_models' directory."]) /\
  (load model_path).2 <> [].
Proof.
  unfold load_vosk_model.
  destruct (os_path_exists model_path); simpl.
  - destruct (Model model_path) as [e|m0]; simpl.
    + split; [|split; [|split]].
      * intros m. split; [discriminate|]. intros [_ Hm]. discriminate Hm.
      * split; [|reflexivity]. intros _. right. eauto.
      * discriminate.
      * discriminate.
    + split; [|split; [|split]].
      * intros m. split.
        -- intros Hm. inversion Hm; subst. auto.
        -- intros [_ Hm]. inversion Hm; subst. reflexivity.
      * split; [discriminate|]. intros [Hx|[e Hx]]; discriminate Hx.
      * discriminate.
      * discriminate.
  - split; [|split; [|split]].
    + intros m. split; [discriminate|]. intros [Hx _]. discriminate Hx.
    + split; [|reflexivity]. intros _. left. reflexivity.
    + reflexivity.
    + discriminate.
Qed.

End MoreVosk.

(** ** Closed examples *)

(** C1, counterexample: a POST /audio that has passed line 97 and a
    recognition under way are both overtaken by a POST /mode that clears
    the flag.  The run ends with the flag clear, a chunk in the queue and
    a success in the slot. *)
Lemma offline_state_not_reset :
  Sample.run Sample.initial_config Sample.overtaken = Some Sample.overtaken_end /\
  web_online_mode (globals Sample.overtaken_end.1) = false /\
  audio_chunk_queue (globals Sample.overtaken_end.1) = [Sample.chunk_zero] /\
  latest_transcription_result (globals Sample.overtaken_end.1) = success_result "hello" /\
  ~ (forall sched c out,
       Sample.run Sample.initial_config sched = Some (c, out) ->
       web_online_mode (globals c) = false ->
       audio_chunk_queue (globals c) = [] /\
       status (latest_transcription_result (globals c)) = "idle").
Proof.
  assert (H : Sample.run Sample.initial_config Sample.overtaken
              = Some Sample.overtaken_end) by (vm_compute; reflexivity).
  repeat split; try reflexivity.
  intros C. destruct (C _ _ _ H eq_refl) as [Hq _]. discriminate Hq.
Qed.

(** C1, the serial case at work: the mode set, a chunk submitted, the
    mode cleared. *)
Lemma offline_queue_empty_serial_witness :
  Sample.serve_all Sample.initial_config Sample.on_submit_off
    = Some Sample.on_submit_off_end /\
  web_online_mode (globals Sample.on_submit_off_end.1) = false /\
  audio_chunk_queue (globals Sample.on_submit_off_end.1) = [].
Proof.
  assert (H : Sample.serve_all Sample.initial_config Sample.on_submit_off
              = Some (Sample.on_submit_off_end.1, Sample.on_submit_off_end.2))
    by (vm_compute; reflexivity).
  split; [exact H|]. split; [reflexivity|].
  apply (offline_queue_empty_serial Sample.b64decode Sample.from_raw
           Sample.on_submit_off _ _ H).
  reflexivity.
Defined.

(** C2 at work: two submissions appended in the other order than they
    arrived reach the worker in the order of the appends. *)
Lemma queue_is_fifo_witness :
  Sample.run Sample.initial_config Sample.crossed = Some Sample.crossed_end /\
  cleared Sample.crossed_end.2 = false /\
  enqueued Sample.crossed_end.2 = [Sample.chunk_zero; Sample.chunk_hi] /\
  taken Sample.b64decode Sample.from_raw Sample.initial_config Sample.crossed
    = [Sample.chunk_zero; Sample.chunk_hi] /\
  taken Sample.b64decode Sample.from_raw Sample.initial_config Sample.crossed
    ++ audio_chunk_queue (globals Sample.crossed_end.1) =
    audio_chunk_queue (globals Sample.initial_config) ++ enqueued Sample.crossed_end.2.
Proof.
  assert (H : Sample.run Sample.initial_config Sample.crossed
              = Some (Sample.crossed_end.1, Sample.crossed_end.2))
    by (vm_compute; reflexivity).
  split; [exact H|]. split; [reflexivity|]. split; [reflexivity|].
  split; [vm_compute; reflexivity|].
  apply (proj1 (proj2 (queue_is_fifo Sample.b64decode Sample.from_raw _ _ _ _ H))).
  reflexivity.
Defined.

(** C3 at work: one result written, the first poll returns it, the second
    the idle value. *)
Lemma poll_is_destructive_witness :
  Sample.run Sample.initial_config Sample.polled_twice
    = Some Sample.polled_twice_end /\
  published Sample.polled_twice_end.2 = 1%nat /\
  (success_polls Sample.polled_twice_end.2 + holds_success Sample.polled_twice_end.1
   <= published Sample.polled_twice_end.2 + holds_success Sample.initial_config)%nat.
Proof.
  assert (H : Sample.run Sample.initial_config Sample.polled_twice
              = Some (Sample.polled_twice_end.1, Sample.polled_twice_end.2))
    by (vm_compute; reflexivity).
  split; [exact H|]. split; [reflexivity|].
  exact (proj1 (poll_is_destructive Sample.b64decode Sample.from_raw _ _ _ _ H)).
Defined.

(** C6, counterexample: the worker waits on the empty queue, then a whole
    POST /mode clears the flag and the queue.  No step of the run calls
    [notify()], and the worker is still blocked at the end. *)
Lemma offline_transition_without_notify :
  Sample.run Sample.initial_config Sample.wait_then_offline
    = Some Sample.wait_then_offline_end /\
  cleared Sample.wait_then_offline_end.2 = true /\
  existsb is_notify Sample.wait_then_offline_end.2 = false /\
  worker Sample.wait_then_offline_end.1 = WWaiting /\
  ~ (forall sched c out,
       Sample.run Sample.initial_config sched = Some (c, out) ->
       cleared out = true ->
       existsb is_notify out = true).
Proof.
  assert (H : Sample.run Sample.initial_config Sample.wait_then_offline
              = Some Sample.wait_then_offline_end) by (vm_compute; reflexivity).
  repeat split; try reflexivity.
  intros C. specialize (C _ _ _ H eq_refl). discriminate C.
Qed.

(** C6 at work, on the same run: the blocked worker has an empty queue. *)
Lemma enqueue_notifies_mode_does_not_witness :
  Sample.run Sample.initial_config Sample.wait_then_offline
    = Some Sample.wait_then_offline_end /\
  (worker Sample.wait_then_offline_end.1 = WWaiting ->
   audio_chunk_queue (globals Sample.wait_then_offline_end.1) = []).
Proof.
  assert (H : Sample.run Sample.initial_config Sample.wait_then_offline
              = Some (Sample.wait_then_offline_end.1, Sample.wait_then_offline_end.2))
    by (vm_compute; reflexivity).
  split; [exact H|].
  exact (proj1 (enqueue_notifies_mode_does_not Sample.b64decode Sample.from_raw
                  _ _ _ H)).
Defined.

(** C7, counterexample: at start the flag is clear and the queue empty;
    the worker's iteration does not wait, it sleeps 50 ms and is back at
    the top of the loop in the same state. *)
Lemma offline_worker_sleeps :
  Sample.run Sample.initial_config [WorkerStep; WorkerStep]
    = Some (Sample.initial_config, [Sleep 50]) /\
  ~ (forall c c' out,
       web_online_mode (globals c) = false ->
       audio_chunk_queue (globals c) = [] ->
       worker c = WTop ->
       Sample.exec c WorkerStep = Some (c', out) ->
       worker c' = WWaiting).
Proof.
  split; [reflexivity|].
  intros C.
  specialize (C Sample.initial_config (with_worker (WHave None) Sample.initial_config) []
                eq_refl eq_refl eq_refl eq_refl).
  discriminate C.
Qed.

(** C7 at work: at start, with the flag clear, an iteration sleeps and is
    back where it was; at the end of [wait_then_offline], with the flag
    clear too, the worker is blocked and has no step. *)
Lemma worker_waits_online_sleeps_offline_witness :
  worker Sample.initial_config = WTop /\
  web_online_mode (globals Sample.initial_config) = false /\
  Sample.run Sample.initial_config [WorkerStep; WorkerStep]
    = Some (Sample.initial_config, [Sleep 50]) /\
  worker Sample.wait_then_offline_end.1 = WWaiting /\
  web_online_mode (globals Sample.wait_then_offline_end.1) = false /\
  Sample.exec Sample.wait_then_offline_end.1 WorkerStep = None.
Proof.
  split; [reflexivity|]. split; [reflexivity|].
  split.
  - exact (proj2 (proj1 (worker_waits_online_sleeps_offline
                           Sample.b64decode Sample.from_raw Sample.initial_config)
                    eq_refl) eq_refl).
  - split; [reflexivity|]. split; [reflexivity|].
    exact (proj1 (proj2 (worker_waits_online_sleeps_offline
                           Sample.b64decode Sample.from_raw
                           Sample.wait_then_offline_end.1) eq_refl)).
Defined.

(** C8 at work: the engine unreachable while a second chunk is queued. *)
Lemma worker_engine_failure_witness :
  worker Sample.recognizing = WRecognizing Sample.chunk_hi /\
  Sample.exec Sample.recognizing
    (EngineReturns (inl (Py.Raise Py.RequestError "recognition connection failed")))
  = Some (with_worker WTop Sample.recognizing,
          [Print "Could not request results from Google Speech Recognition service; recognition connection failed"]).
Proof.
  split; [reflexivity|].
  exact (proj1 (worker_engine_failure Sample.b64decode Sample.from_raw
                  Sample.recognizing Sample.chunk_hi
                  (Py.Raise Py.RequestError "recognition connection failed")
                  eq_refl (or_intror eq_refl))).
Defined.

(** C9, at the failing input: with the flag set, the body [5] passes
    [not data] and makes the membership test of line 101 raise
    [TypeError]; line 101 stands before the [try] of line 105, so the
    exception leaves the view function, which returns neither 400 nor 200.
    The globals are as they were. *)
Theorem receive_audio_number_body :
  receive_audio Sample.b64decode online_globals (Py.VInt 5) =
    (online_globals,
     Unhandled (Py.Raise Py.TypeError "argument of type 'int' is not iterable"),
     []) /\
  ~ (forall g data, exists b code,
       (receive_audio Sample.b64decode g data).1.2 = Reply b code /\
       (code = 400 \/ code = 200)).
Proof.
  split; [reflexivity|].
  intros H. destruct (H online_globals (Py.VInt 5)) as (b & code & E & _).
  discriminate E.
Qed.

(** The object case at work: the flag set and the body
    [{"audio_chunk": "aGk="}]. *)
Lemma receive_audio_object_body_witness :
  object_or_null Sample.audio_hi /\
  receive_audio Sample.b64decode online_globals Sample.audio_hi =
  (set_queue [Sample.chunk_hi] online_globals,
   Reply (StatusMessage "success" "Audio chunk received") 200,
   [Enqueued Sample.chunk_hi; Notify]).
Proof.
  assert (Hobj : object_or_null Sample.audio_hi).
  { right. eexists. reflexivity. }
  split; [exact Hobj|].
  destruct (receive_audio_object_body Sample.b64decode online_globals _ Hobj)
    as [[_ (m & out & E & _)]|[_ (v & audio_data & _ & _ & E)]].
  - vm_compute in E. discriminate E.
  - vm_compute. reflexivity.
Defined.

(** C10 at work: the body [{"online_mode": "false"}] sets the flag. *)
Lemma set_mode_coerces_truthiness_witness :
  ({[ "online_mode" := Py.VStr "false" ]} : gmap string Py.value) !! "online_mode"
    = Some (Py.VStr "false") /\
  web_online_mode
    (set_mode initial_globals (Py.VDict {[ "online_mode" := Py.VStr "false" ]})).1.1
  = true.
Proof.
  assert (H : ({[ "online_mode" := Py.VStr "false" ]} : gmap string Py.value)
                !! "online_mode" = Some (Py.VStr "false")) by reflexivity.
  split; [exact H|].
  exact (proj1 (proj2 (set_mode_coerces_truthiness initial_globals _ _ H))).
Defined.

(** C4, at the failing input: the flag set, one chunk queued, the slot
    holding a recognised text, and the body [{"online_mode": false}].  The
    call empties the queue and returns with the slot as it was. *)
Theorem set_mode_offline_keeps_result :
  set_mode
    {| web_online_mode := true;
       audio_chunk_queue := [Sample.chunk_zero];
       latest_transcription_result := success_result "hello" |}
    Sample.mode_off =
  ({| web_online_mode := false;
      audio_chunk_queue := [];
      latest_transcription_result := success_result "hello" |},
   Reply (StatusMode "success" false) 200,
   [Print "Backend: Online mode set to False"; Cleared]).
Proof. vm_compute. reflexivity. Qed.


(** The same from start: the chunk [b"\x00"] and a well-formed chunk are
    submitted in that order; the worker pops both, and the text of the
    second is published. *)
Example worker_goes_on_after_decode_failure :
  Injected.run Sample.initial_config Injected.bad_then_good
    = Some Injected.bad_then_good_end /\
  dequeued Injected.bad_then_good_end.2 = [[Byte.x00]; Sample.chunk_hi] /\
  published Injected.bad_then_good_end.2 = 1%nat /\
  latest_transcription_result (globals Injected.bad_then_good_end.1)
    = success_result "hi".
Proof. vm_compute. repeat split; reflexivity. Qed.

(** ** Closed examples for the further properties *)

(** Two submissions, served one after the other. *)
Lemma serial_submissions_keep_order_witness :
  web_online_mode (globals Scenario.online_idle) = true /\
  exists c' out,
    Sample.serve_all Scenario.online_idle
      (map PostAudio [Sample.audio_hi; Sample.audio_zero]) = Some (c', out) /\
    web_online_mode (globals c') = true /\
    audio_chunk_queue (globals c') =
      audio_chunk_queue (globals Scenario.online_idle)
        ++ [Sample.chunk_hi; Sample.chunk_zero] /\
    enqueued out = [Sample.chunk_hi; Sample.chunk_zero].
Proof.
  split; [reflexivity|].
  apply (serial_submissions_keep_order Sample.b64decode Sample.from_raw
           Scenario.online_idle [Sample.audio_hi; Sample.audio_zero]
           [Sample.chunk_hi; Sample.chunk_zero]).
  - reflexivity.
  - repeat constructor; eexists; (split; [reflexivity | vm_compute; reflexivity]).
Defined.

(** Two chunks left over with the flag clear, then two more iterations;
    and the worker blocked at the end of [wait_then_offline]. *)
Lemma offline_worker_drains_and_polls_witness :
  worker Scenario.offline_with_leftovers = WTop /\
  web_online_mode (globals Scenario.offline_with_leftovers) = false /\
  Sample.run Scenario.offline_with_leftovers (idle_iterations (2 + 2)) =
    Some (Sample.initial_config,
          [Dequeued Sample.chunk_hi; Sleep 50; Dequeued Sample.chunk_zero; Sleep 50;
           Sleep 50; Sleep 50]) /\
  worker Sample.wait_then_offline_end.1 = WWaiting /\
  web_online_mode (globals Sample.wait_then_offline_end.1) = false /\
  Sample.run Sample.wait_then_offline_end.1 (idle_iterations 1) = None.
Proof.
  split; [reflexivity|]. split; [reflexivity|].
  split.
  - exact (proj1 (offline_worker_drains_and_polls Sample.b64decode Sample.from_raw
                    Scenario.offline_with_leftovers 2 eq_refl) eq_refl).
  - split; [reflexivity|]. split; [reflexivity|].
    exact (proj2 (offline_worker_drains_and_polls Sample.b64decode Sample.from_raw
                    Sample.wait_then_offline_end.1 0 eq_refl) eq_refl).
Defined.

(** An empty chunk popped with the flag set is dropped. *)
Lemma worker_drops_chunk_iff_witness :
  worker (with_worker (WHave (Some [])) Scenario.online_idle) = WHave (Some []) /\
  exists w out,
    Sample.exec (with_worker (WHave (Some [])) Scenario.online_idle) WorkerStep =
      Some (with_worker w (with_worker (WHave (Some [])) Scenario.online_idle), out) /\
    published out = 0%nat /\
    ((w, out) = (WTop, [Sleep 50]) <->
     chunk_truthy (Some [])
       && web_online_mode
            (globals (with_worker (WHave (Some [])) Scenario.online_idle)) = false).
Proof.
  split; [reflexivity|].
  exact (worker_drops_chunk_iff Sample.b64decode Sample.from_raw
           (with_worker (WHave (Some [])) Scenario.online_idle) (Some []) eq_refl).
Defined.

(** The engine raises an exception of another class. *)
Lemma recognition_failure_is_contained_witness :
  worker Sample.recognizing = WRecognizing Sample.chunk_hi /\
  exists out,
    Sample.exec Sample.recognizing
      (EngineReturns (inl (Py.Raise Py.OtherException "boom"))) =
      Some (with_worker WTop Sample.recognizing, out) /\
    published out = 0%nat /\
    (forall ms, ~ In (Sleep ms) out) /\
    (out = [] <-> Py.OtherException = Py.UnknownValueError).
Proof.
  split; [reflexivity|].
  exact (recognition_failure_is_contained Sample.b64decode Sample.from_raw
           Sample.recognizing Sample.chunk_hi
           (Py.Raise Py.OtherException "boom") eq_refl).
Defined.

(** The engine returns after the flag was cleared: the text is written
    all the same. *)
Lemma recognised_text_is_published_witness :
  worker (with_globals initial_globals Sample.recognizing)
    = WRecognizing Sample.chunk_hi /\
  web_online_mode (globals (with_globals initial_globals Sample.recognizing)) = false /\
  Sample.run (with_globals initial_globals Sample.recognizing)
    [EngineReturns (inr "hello"); WorkerStep] =
    Some (with_worker WTop
            (with_globals (set_result (success_result "hello") initial_globals)
               Sample.recognizing),
          [Print "Backend Recognized (Google): hello";
           Published (success_result "hello")]).
Proof.
  split; [reflexivity|]. split; [reflexivity|].
  exact (recognised_text_is_published Sample.b64decode Sample.from_raw
           (with_globals initial_globals Sample.recognizing)
           Sample.chunk_hi "hello" eq_refl).
Defined.


(** One result written and polled twice: the trace ends on the idle
    value. *)
Lemma slot_follows_trace_witness :
  Sample.run Sample.initial_config Sample.polled_twice
    = Some Sample.polled_twice_end /\
  slot_after idle_result Sample.polled_twice_end.2 = Some idle_result.
Proof.
  assert (H : Sample.run Sample.initial_config Sample.polled_twice
              = Some (Sample.polled_twice_end.1, Sample.polled_twice_end.2))
    by (vm_compute; reflexivity).
  split; [exact H|].
  exact (slot_follows_trace Sample.b64decode Sample.from_raw _ _ _ _ H).
Defined.

(** At the end of the overtaken run the slot holds a success. *)
Lemma slot_is_idle_or_success_witness :
  Sample.run Sample.initial_config Sample.overtaken = Some Sample.overtaken_end /\
  (latest_transcription_result (globals Sample.overtaken_end.1) = idle_result \/
   exists t,
     latest_transcription_result (globals Sample.overtaken_end.1) = success_result t).
Proof.
  assert (H : Sample.run Sample.initial_config Sample.overtaken
              = Some (Sample.overtaken_end.1, Sample.overtaken_end.2))
    by (vm_compute; reflexivity).
  split; [exact H|].
  exact (slot_is_idle_or_success Sample.b64decode Sample.from_raw _ _ _ H).
Defined.

(** A poll at start touches the slot only. *)
Lemma step_frame_witness :
  Sample.exec Sample.initial_config Poll =
    Some (Sample.initial_config, [Returned (Reply (Transcription idle_result) 200)]) /\
  globals Sample.initial_config = set_result idle_result (globals Sample.initial_config).
Proof.
  assert (H : Sample.exec Sample.initial_config Poll =
              Some (Sample.initial_config,
                    [Returned (Reply (Transcription idle_result) 200)]))
    by reflexivity.
  split; [exact H|].
  exact (step_frame Sample.b64decode Sample.from_raw _ _ _ _ H).
Defined.

(** The chunk [b"hi"], recognised as ["hi"]. *)
Lemma submitted_chunk_is_transcribed_witness :
  web_online_mode (globals Scenario.online_idle) = true /\
  audio_chunk_queue (globals Scenario.online_idle) = [] /\
  field Sample.audio_hi "audio_chunk" = Some (Py.VStr "aGk=") /\
  Sample.b64decode (Py.VStr "aGk=") = inr Sample.chunk_hi /\
  Sample.from_raw Sample.chunk_hi = None /\
  Sample.serve_all Scenario.online_idle
    [PostAudio Sample.audio_hi; Worker; Worker; Engine (inr "hi"); Worker;
     GetTranscription; GetTranscription] =
    Some ({| globals := set_result idle_result (globals Scenario.online_idle);
             audio_calls := [];
             mode_calls := [];
             worker := WTop |},
          [Enqueued Sample.chunk_hi; Notify; Returned audio_received;
           Dequeued Sample.chunk_hi;
           Print "Backend Recognized (Google): hi";
           Published (success_result "hi");
           Returned (Reply (Transcription (success_result "hi")) 200);
           Returned (Reply (Transcription idle_result) 200)]).
Proof.
  assert (Hf : field Sample.audio_hi "audio_chunk" = Some (Py.VStr "aGk="))
    by reflexivity.
  assert (Hd : Sample.b64decode (Py.VStr "aGk=") = inr Sample.chunk_hi)
    by reflexivity.
  assert (Hr : Sample.from_raw Sample.chunk_hi = None) by reflexivity.
  repeat (split; [first [reflexivity | assumption]|]).
  apply (submitted_chunk_is_transcribed Sample.b64decode Sample.from_raw
           Scenario.online_idle Sample.audio_hi (Py.VStr "aGk=")
           Sample.chunk_hi "hi" eq_refl eq_refl (or_introl eq_refl) Hf Hd).
  - discriminate.
  - exact Hr.
Defined.
